(** * The agent-report reconciliation pipeline

    A shallow embedding of [genesys_to_agent_template.py]: the time codec,
    the three aggregators, the performance/status merge, the booking
    enrichment and the template writer, followed by the properties the
    specification states about them.

    Conventions of the embedding.
    - A finite Python float is the rational it denotes ([Qc], canonical
      fractions, so that equal numbers are equal terms); NaN is kept apart,
      because pandas uses it as the null marker.  Infinities and rounding
      error of binary floating point are outside the model.
    - A pandas DataFrame is an ordered list of column names and a list of
      rows; a row maps a column name to a cell, as [Series.get] reads it.
    - Code that can raise returns [result]; [try/except] is a match on it.
    - What the standard library reads from text ([float] on a [str],
      [pandas.to_numeric], [str] of a number) and the wall clock are
      variables of the section that holds the model. *)

From stdpp Require Import base numbers list strings gmap sorting pretty.
From Stdlib Require Import QArith Qcanon Qround Ascii Lia Lqa.
From Stdlib Require String.

Local Open Scope Z_scope.

(* ================================================================== *)
(** ** Python values, exceptions *)
(* ================================================================== *)

(** The exceptions the modelled code raises or catches. *)
Inductive exn :=
  | TypeError
  | ValueError (msg : string)
  | KeyError (key : string)
  | ZeroDivisionError.

Inductive result (A : Type) :=
  | Ok (a : A)
  | Raise (e : exn).
Arguments Ok {A} a.
Arguments Raise {A} e.

Global Instance result_ret : MRet result := λ A a, Ok a.
Global Instance result_bind : MBind result := λ A B f m,
  match m with Ok a => f a | Raise e => Raise e end.
Global Instance result_fmap : FMap result := λ A B f m,
  match m with Ok a => Ok (f a) | Raise e => Raise e end.

Definition is_ok {A} (m : result A) : bool :=
  match m with Ok _ => true | Raise _ => false end.

(** A float as Python holds it: a finite value or NaN. *)
Inductive pyfloat :=
  | FNum (q : Qc)
  | FNaN.

(** The values that reach the scalar helpers: [None], a float, a string, or
    an object of another type (a list, say), which [float] rejects. *)
Inductive pyval :=
  | PNone
  | PFloat (f : pyfloat)
  | PStr (s : string)
  | PObj.

Definition qz (z : Z) : Qc := Q2Qc (inject_Z z).

(** [pd.isna] on a scalar. *)
Definition pd_isna (v : pyval) : bool :=
  match v with
  | PNone | PFloat FNaN => true
  | _ => false
  end.

(** [round(x)] on a float, with Python's ties-to-even rule; the result is an
    [int]. *)
Definition round_half_even (q : Q) : Z :=
  let f := Qfloor q in
  match (2 * (q - inject_Z f) ?= 1)%Q with
  | Lt => f
  | Gt => f + 1
  | Eq => if Z.even f then f else f + 1
  end.

Definition py_round (x : pyfloat) : result Z :=
  match x with
  | FNum q => Ok (round_half_even q)
  | FNaN => Raise (ValueError "cannot convert float NaN to integer")
  end.

(** [int(x)] on a float: truncation toward zero. *)
Definition py_int (x : pyfloat) : result Z :=
  match x with
  | FNum q => Ok (Z.quot (Qnum q) (Z.pos (Qden q)))
  | FNaN => Raise (ValueError "cannot convert float NaN to integer")
  end.

(** Truth value of a float: every float but zero. *)
Definition truthy (x : pyfloat) : bool :=
  match x with
  | FNum q => bool_decide (q ≠ qz 0)
  | FNaN => true
  end.

(** [a / b] on floats. *)
Definition py_div (a b : pyfloat) : result pyfloat :=
  match b with
  | FNum q =>
      if bool_decide (q = qz 0) then Raise ZeroDivisionError
      else match a with
           | FNum p => Ok (FNum (p / q)%Qc)
           | FNaN => Ok FNaN
           end
  | FNaN => Ok FNaN
  end.

(* ================================================================== *)
(** ** Calendar values ([datetime.date], [datetime.time]) *)
(* ================================================================== *)

Record date := Date { year : Z; month : Z; day : Z }.
Record time := Time { hour : Z; minute : Z; second : Z }.

Global Instance date_eq_dec : EqDecision date.
Proof. solve_decision. Defined.
Global Instance time_eq_dec : EqDecision time.
Proof. solve_decision. Defined.

Definition is_leap (y : Z) : bool :=
  (y mod 4 =? 0) && (negb (y mod 100 =? 0) || (y mod 400 =? 0)).

Definition days_in_month (y m : Z) : Z :=
  if m =? 2 then (if is_leap y then 29 else 28)
  else if (m =? 4) || (m =? 6) || (m =? 9) || (m =? 11) then 30
  else 31.

(** [datetime.date(y, m, d)] *)
Definition dt_date (y m d : Z) : result date :=
  if negb ((1 <=? m) && (m <=? 12)) then
    Raise (ValueError "month must be in 1..12")
  else if negb ((1 <=? d) && (d <=? days_in_month y m)) then
    Raise (ValueError "day is out of range for month")
  else Ok (Date y m d).

(** [datetime.time(hour=h, minute=m, second=s)] *)
Definition dt_time (h m s : Z) : result time :=
  if negb ((0 <=? h) && (h <=? 23)) then
    Raise (ValueError "hour must be in 0..23")
  else if negb ((0 <=? m) && (m <=? 59)) then
    Raise (ValueError "minute must be in 0..59")
  else if negb ((0 <=? s) && (s <=? 59)) then
    Raise (ValueError "second must be in 0..59")
  else Ok (Time h m s).

(* ================================================================== *)
(** ** Text helpers ([str.strip], [str.upper], [in] on strings) *)
(* ================================================================== *)

Definition code (a : ascii) : N := N_of_ascii a.

Definition is_digit (a : ascii) : bool :=
  ((48 <=? code a) && (code a <=? 57))%N.

Definition between (lo hi : N) (a : ascii) : bool :=
  ((lo <=? code a) && (code a <=? hi))%N.

(** White space as [str.strip] and the regular expression class [\s] see it
    among the first 128 characters. *)
Definition is_space (a : ascii) : bool :=
  between 9 13 a || between 28 32 a.

Definition upper_char (a : ascii) : ascii :=
  if between 97 122 a then ascii_of_N (code a - 32) else a.

Fixpoint upper (s : string) : string :=
  match s with
  | EmptyString => EmptyString
  | String a s' => String (upper_char a) (upper s')
  end.

Fixpoint lstrip (s : string) : string :=
  match s with
  | String a s' => if is_space a then lstrip s' else s
  | EmptyString => EmptyString
  end.

Definition strip (s : string) : string :=
  String.rev (lstrip (String.rev (lstrip s))).

(** [needle in hay] *)
Fixpoint occurs (needle hay : string) : bool :=
  String.prefix needle hay ||
  match hay with
  | EmptyString => false
  | String _ hay' => occurs needle hay'
  end.

(** [int(text)] on the text of a captured group: decimal digits, blanks
    skipped. *)
Definition int_of_digits (l : list ascii) : Z :=
  foldl (λ acc a, if is_digit a then 10 * acc + (Z.of_N (code a) - 48) else acc) 0 l.

(* ================================================================== *)
(** ** [datetime.strptime] on the directives the code uses *)
(* ================================================================== *)

(** CPython compiles a format into a regular expression and matches it with
    a backtracking matcher; the fragment needed here has character classes,
    a greedy one-or-more class, sequence and ordered alternative. *)
Inductive regex :=
  | RChar (p : ascii → bool)
  | RPlus (p : ascii → bool)
  | RSeq (r1 r2 : regex)
  | RAlt (r1 r2 : regex).

(** The matches of [p+] at the head of [s], longest first. *)
Fixpoint plus_matches (p : ascii → bool) (s : list ascii)
    : list (list ascii * list ascii) :=
  match s with
  | a :: s' =>
      if p a then
        ((λ mr, (a :: mr.1, mr.2)) <$> plus_matches p s') ++ [([a], s')]
      else []
  | [] => []
  end.

(** Every way [r] matches a prefix of [s], as (matched text, rest), in the
    order in which the matcher tries them. *)
Fixpoint rmatch (r : regex) (s : list ascii) : list (list ascii * list ascii) :=
  match r with
  | RChar p =>
      match s with
      | a :: s' => if p a then [([a], s')] else []
      | [] => []
      end
  | RPlus p => plus_matches p s
  | RSeq r1 r2 =>
      mr1 ← rmatch r1 s;
      mr2 ← rmatch r2 mr1.2;
      [(mr1.1 ++ mr2.1, mr2.2)]
  | RAlt r1 r2 => rmatch r1 s ++ rmatch r2 s
  end.

Inductive directive := Dd | Dm | Dy | DH | DM.

Global Instance directive_eq_dec : EqDecision directive.
Proof. solve_decision. Defined.

Definition chr (a : ascii) : regex := RChar (λ b, bool_decide (a = b)).
Definition rng (lo hi : ascii) : regex := RChar (between (code lo) (code hi)).
Definition digit : regex := RChar is_digit.

(** The expressions of [_strptime.TimeRE]:
    - [%d]: [3[0-1]|[1-2]\d|0[1-9]|[1-9]| [1-9]]
    - [%m]: [1[0-2]|0[1-9]|[1-9]]
    - [%y]: [\d\d]
    - [%H]: [2[0-3]|[0-1]\d|\d]
    - [%M]: [[0-5]\d|\d] *)
Definition directive_re (d : directive) : regex :=
  match d with
  | Dd => RAlt (RSeq (chr "3") (rng "0" "1"))
         (RAlt (RSeq (rng "1" "2") digit)
         (RAlt (RSeq (chr "0") (rng "1" "9"))
         (RAlt (rng "1" "9")
               (RSeq (chr " ") (rng "1" "9")))))
  | Dm => RAlt (RSeq (chr "1") (rng "0" "2"))
         (RAlt (RSeq (chr "0") (rng "1" "9"))
               (rng "1" "9"))
  | Dy => RSeq digit digit
  | DH => RAlt (RSeq (chr "2") (rng "0" "3"))
         (RAlt (RSeq (rng "0" "1") digit)
               digit)
  | DM => RAlt (RSeq (rng "0" "5") digit) digit
  end%char.

(** A compiled format: directives (capturing groups), runs of white space
    (each becomes [\s+]) and literal characters. *)
Inductive fitem :=
  | FDir (d : directive)
  | FSpace
  | FLit (a : ascii).

Fixpoint compile_format (f : list ascii) : option (list fitem) :=
  match f with
  | [] => Some []
  | "%"%char :: c :: f' =>
      d ← (if bool_decide (c = "d"%char) then Some Dd
           else if bool_decide (c = "m"%char) then Some Dm
           else if bool_decide (c = "y"%char) then Some Dy
           else if bool_decide (c = "H"%char) then Some DH
           else if bool_decide (c = "M"%char) then Some DM
           else None);
      (FDir d ::.) <$> compile_format f'
  | a :: f' =>
      rest ← compile_format f';
      Some (if is_space a then
              match rest with
              | FSpace :: _ => rest
              | _ => FSpace :: rest
              end
            else FLit a :: rest)
  end.

Definition fitem_re (i : fitem) : regex :=
  match i with
  | FDir d => directive_re d
  | FSpace => RPlus is_space
  | FLit a => chr a
  end.

(** The matches of a whole format against a prefix of the data, with the text
    of each group. *)
Fixpoint fmatch (items : list fitem) (s : list ascii)
    : list (list (directive * list ascii) * list ascii) :=
  match items with
  | [] => [([], s)]
  | i :: items' =>
      mr ← rmatch (fitem_re i) s;
      cr ← fmatch items' mr.2;
      [(match i with FDir d => (d, mr.1) :: cr.1 | _ => cr.1 end, cr.2)]
  end.

Record datetime := DateTime { dt_day : date; dt_clock : time }.

Global Instance datetime_eq_dec : EqDecision datetime.
Proof. solve_decision. Defined.

(** The fields [_strptime] collects: year 1900, 1 January, 00:00 unless a
    group says otherwise; a two-digit year up to 68 is in 2000-2068, one
    from 69 in 1969-1999. *)
Record fields := Fields { f_year : Z; f_month : Z; f_day : Z; f_hour : Z; f_minute : Z }.

Definition set_field (fs : fields) (g : directive * list ascii) : fields :=
  let n := int_of_digits g.2 in
  match g.1 with
  | Dd => Fields (f_year fs) (f_month fs) n (f_hour fs) (f_minute fs)
  | Dm => Fields (f_year fs) n (f_day fs) (f_hour fs) (f_minute fs)
  | Dy => Fields (if n <=? 68 then n + 2000 else n + 1900)
                 (f_month fs) (f_day fs) (f_hour fs) (f_minute fs)
  | DH => Fields (f_year fs) (f_month fs) (f_day fs) n (f_minute fs)
  | DM => Fields (f_year fs) (f_month fs) (f_day fs) (f_hour fs) n
  end.

(** [datetime.strptime(data, fmt)]: the first match of the compiled format
    must use up the data, and the fields must name a real day. *)
Definition strptime (data fmt : string) : result datetime :=
  match compile_format (String.list_ascii_of_string fmt) with
  | None => Raise (ValueError "bad directive in format")
  | Some items =>
      match fmatch items (String.list_ascii_of_string data) with
      | [] => Raise (ValueError "time data does not match format")
      | (groups, rest) :: _ =>
          match rest with
          | _ :: _ => Raise (ValueError "unconverted data remains")
          | [] =>
              let fs := foldl set_field (Fields 1900 1 1 0 0) groups in
              d ← dt_date (f_year fs) (f_month fs) (f_day fs);
              t ← dt_time (f_hour fs) (f_minute fs) 0;
              Ok (DateTime d t)
          end
      end
  end.

(* ================================================================== *)
(** ** pandas: cells, rows and frames *)
(* ================================================================== *)

(** A cell of a frame read from CSV: missing (NaN), a number or text. *)
Inductive cell :=
  | Null
  | Num (q : Qc)
  | Str (s : string).

Global Instance cell_eq_dec : EqDecision cell.
Proof. solve_decision. Defined.

(** A row maps a column label to its cell; a label the map does not hold
    reads as missing. *)
Abbreviation row := (gmap string cell).

Record DataFrame := Frame { columns : list string; rows : list row }.

Definition cell_at (r : row) (c : string) : cell := default Null (r !! c).

Definition py_of_cell (c : cell) : pyval :=
  match c with
  | Null => PFloat FNaN
  | Num q => PFloat (FNum q)
  | Str s => PStr s
  end.

(** [row.get(c, dflt)] on a row yielded by [df.iterrows()]: the labels of
    the row are the columns of the frame. *)
Definition row_get (cols : list string) (r : row) (c : string) (dflt : pyval) : pyval :=
  if bool_decide (c ∈ cols) then py_of_cell (cell_at r c) else dflt.

(** [df[df[c].notna()]] *)
Definition filter_notna (c : string) (df : DataFrame) : DataFrame :=
  Frame (columns df) (filter (λ r, cell_at r c ≠ Null) (rows df)).

(** The value of the key columns [ks] in a row. *)
Definition row_key (ks : list string) (r : row) : list cell := cell_at r <$> ks.

(** The order pandas sorts keys by: numbers by value, text by code point,
    missing last; keys of several columns lexicographically. *)
Definition cell_le (a b : cell) : Prop :=
  match a, b with
  | Num p, Num q => (p ≤ q)%Qc
  | Num _, _ => True
  | Str _, Num _ => False
  | Str s, Str t => String.le s t
  | Str _, Null => True
  | Null, Null => True
  | Null, _ => False
  end.

Global Instance cell_le_dec : RelDecision cell_le.
Proof. intros [] []; simpl; apply _. Defined.

Fixpoint key_le (k1 k2 : list cell) : Prop :=
  match k1, k2 with
  | [], _ => True
  | _ :: _, [] => False
  | a :: k1', b :: k2' => if decide (a = b) then key_le k1' k2' else cell_le a b
  end.

Global Instance key_le_dec : RelDecision key_le.
Proof.
  intros k1. induction k1 as [|a k1 IH]; intros [|b k2]; simpl; try apply _.
  destruct (decide (a = b)); apply _.
Defined.

(** Rows compared by their key. *)
Definition row_le (ks : list string) (a b : row) : Prop :=
  key_le (row_key ks a) (row_key ks b).

Global Instance row_le_dec ks : RelDecision (row_le ks).
Proof. intros a b. unfold row_le. apply _. Defined.

(** *** [groupby(...).agg(...).reset_index()] *)

Inductive reducer := Sum | Mean | First.

Definition nums (l : list cell) : list Qc :=
  omap (λ c, match c with Num q => Some q | _ => None end) l.

Definition qsum (l : list Qc) : Qc := foldr Qcplus (qz 0) l.

(** The reducers skip missing cells: an empty sum is 0, an empty mean is
    missing, [first] is the first cell that is not missing. *)
Definition reduce (f : reducer) (l : list cell) : cell :=
  match f with
  | Sum => Num (qsum (nums l))
  | Mean =>
      match nums l with
      | [] => Null
      | ns => Num (qsum ns / qz (Z.of_nat (length ns)))%Qc
      end
  | First => default Null (head (filter (λ c, c ≠ Null) l))
  end.

(** The rows that take part in the grouping: with [dropna=True] (the pandas
    default) a row with a missing key component is left out. *)
Definition grouped_rows (dropna : bool) (by_cols : list string) (rs : list row) : list row :=
  if dropna then filter (λ r, Null ∉ row_key by_cols r) rs else rs.

(** The distinct keys, in sorted order. *)
Definition group_keys (dropna : bool) (by_cols : list string) (rs : list row)
    : list (list cell) :=
  merge_sort key_le (remove_dups (row_key by_cols <$> grouped_rows dropna by_cols rs)).

(** The members of the group of key [k], in the order of the frame. *)
Definition group_members (dropna : bool) (by_cols : list string) (rs : list row)
    (k : list cell) : list row :=
  filter (λ r, row_key by_cols r = k) (grouped_rows dropna by_cols rs).

Definition agg_row (by_cols : list string) (spec : list (string * reducer))
    (k : list cell) (members : list row) : row :=
  list_to_map (zip by_cols k ++
               ((λ cf, (cf.1, reduce cf.2 ((λ r, cell_at r cf.1) <$> members))) <$> spec)).

(** [df.groupby(by_cols, dropna=dropna).agg(spec).reset_index()]: one row
    per group, the key columns first, then the reduced columns in the
    order of [spec]. *)
Definition groupby_agg (dropna : bool) (by_cols : list string)
    (spec : list (string * reducer)) (df : DataFrame) : result DataFrame :=
  match by_cols with
  | [] => Raise (ValueError "No group keys passed!")
  | _ =>
      Ok (Frame (by_cols ++ spec.*1)
            ((λ k, agg_row by_cols spec k (group_members dropna by_cols (rows df) k))
               <$> group_keys dropna by_cols (rows df)))
  end.

(** *** [pd.merge] *)

Inductive how := HowLeft | HowOuter.

Section merge.
Context (left right : DataFrame) (on : list string) (suffixes : string * string).

(** A column that both frames hold and that is no key gets the suffix of
    its side. *)
Definition overlaps (c : string) : bool :=
  bool_decide (c ∈ columns left) && bool_decide (c ∈ columns right)
  && negb (bool_decide (c ∈ on)).
Definition left_name (c : string) : string :=
  if overlaps c then c +:+ suffixes.1 else c.
Definition right_name (c : string) : string :=
  if overlaps c then c +:+ suffixes.2 else c.
Definition right_rest : list string :=
  filter (λ c, c ∉ on) (columns right).

Definition merged_columns : list string :=
  (left_name <$> columns left) ++ (right_name <$> right_rest).

Definition joined (l r : row) : row :=
  list_to_map (((λ c, (left_name c, cell_at l c)) <$> columns left) ++
               ((λ c, (right_name c, cell_at r c)) <$> right_rest)).
Definition left_only (l : row) : row :=
  list_to_map (((λ c, (left_name c, cell_at l c)) <$> columns left) ++
               ((λ c, (right_name c, Null)) <$> right_rest)).
Definition right_only (r : row) : row :=
  list_to_map (((λ c, (left_name c, if bool_decide (c ∈ on) then cell_at r c else Null))
                  <$> columns left) ++
               ((λ c, (right_name c, cell_at r c)) <$> right_rest)).

Definition matches_of (l : row) : list row :=
  filter (λ r, row_key on r = row_key on l) (rows right).
Definition unmatched_right : list row :=
  filter (λ r, Forall (λ l, row_key on l ≠ row_key on r) (rows left)) (rows right).

(** The rows a left join yields, in the order of the left frame. *)
Definition left_join_rows : list row :=
  l ← rows left;
  match matches_of l with
  | [] => [left_only l]
  | ms => joined l <$> ms
  end.

(** [pd.merge(left, right, on=on, how=h, suffixes=suffixes)].  A left
    join keeps the order of the left frame; an outer join adds the rows
    of the right frame that found no partner and orders the result by
    key.  pandas rejects an empty list of keys. *)
Definition merge (h : how) : result DataFrame :=
  match on with
  | [] => Raise (ValueError "no key to merge on")
  | _ =>
      Ok (Frame merged_columns
            match h with
            | HowLeft => left_join_rows
            | HowOuter =>
                merge_sort (row_le on)
                  (left_join_rows ++ (right_only <$> unmatched_right))
            end)
  end.
End merge.

(** [df[c] = f(row)]: replaces the column, or appends it when new. *)
Definition set_column (c : string) (f : row → cell) (df : DataFrame) : DataFrame :=
  Frame (if bool_decide (c ∈ columns df) then columns df else columns df ++ [c])
        ((λ r, <[c := f r]> r) <$> rows df).

(* ================================================================== *)
(** ** openpyxl: work books, sheets, cells *)
(* ================================================================== *)

Inductive xlvalue :=
  | XFloat (f : pyfloat)
  | XInt (z : Z)
  | XStr (s : string)
  | XDateTime (d : datetime)
  | XTime (t : time).

Global Instance pyfloat_eq_dec : EqDecision pyfloat.
Proof. solve_decision. Defined.
Global Instance xlvalue_eq_dec : EqDecision xlvalue.
Proof. solve_decision. Defined.

(** A cell of a sheet has a value ([None]: empty) and a style, here an
    index into the styles of the work book. *)
Record xcell := XCell { value : option xlvalue; style : nat }.

Global Instance xcell_eq_dec : EqDecision xcell.
Proof. solve_decision. Defined.

(** A sheet holds the cells that exist, by (row, column), both from 1. *)
Abbreviation sheet := (gmap (nat * nat) xcell).
Abbreviation workbook := (gmap string sheet).

(** [ws.max_row]: the last row that holds a cell, 1 on an empty sheet. *)
Definition max_row (ws : sheet) : nat :=
  foldr Nat.max 1%nat ((λ kv, kv.1.1) <$> map_to_list ws).

(** The value read at a position: [None] where no cell exists. *)
Definition value_at (ws : sheet) (k : nat * nat) : option xlvalue :=
  ws !! k ≫= value.

(** [ws.cell(row, column).value = v] and [ws['A3'] = v]: the cell is
    created with the default style when it does not exist; its style is
    kept when it does. *)
Definition set_value (k : nat * nat) (v : option xlvalue) (ws : sheet) : sheet :=
  <[k := XCell v (default 0%nat (style <$> ws !! k))]> ws.

(** What openpyxl stores for a Python value. *)
Definition xl_of_py (v : pyval) : option xlvalue :=
  match v with
  | PNone | PObj => None
  | PFloat f => Some (XFloat f)
  | PStr s => Some (XStr s)
  end.

(* ================================================================== *)
(** ** The program *)
(* ================================================================== *)

(** The clock reading the specification gives for a whole number of
    seconds: 00:00:00 below zero, 23:59:59 past the end of the day. *)
Definition clamped_clock (s : Z) : time :=
  if s <? 0 then Time 0 0 0
  else if 86399 <? s then Time 23 59 59
  else Time (s / 3600) ((s mod 3600) / 60) (s mod 60).

Definition key_candidates : list string :=
  ["Interval Start"; "Agent Id"; "Agent Name"; "Division Name"].

Definition interval_formats : list string :=
  ["%d/%m/%y %H:%M"; "%m/%d/%y %H:%M"].

(** A row of the flat CSV output, field by field:
    Date, Agent Name, Division Name, Log in Time, Log Out Time,
    Total Logged In Duration (sec), Total Answered Calls,
    Answered INQ&AMB Queue Calls, Outbound Calls, Total Inbound Booking,
    Total Wrap-Up (ACW) sec, Avg Handle Time sec. *)
Record csv_record := CsvRecord {
  rec_date : date;
  rec_agent_name : pyval;
  rec_division_name : pyval;
  rec_log_in : pyval;
  rec_log_out : pyval;
  rec_logged_in : pyval;
  rec_answered : pyfloat;
  rec_inq_amb : pyfloat;
  rec_outbound : pyfloat;
  rec_inbound_booking : pyfloat;
  rec_acw : pyfloat;
  rec_avg_handle : option pyfloat
}.

Section pipeline.
(** [dt.date.today()] at the time of the run. *)
Variable today : date.
(** [float(s)] on a string: [None] where Python raises [ValueError]. *)
Variable float_of_str : string → option pyfloat.
(** What [pd.to_numeric(_, errors='coerce')] reads from text: [None]
    where it yields NaN. *)
Variable to_numeric_str : string → option Qc.
(** [str(x)] on a number. *)
Variable str_of_num : Qc → string.

Definition py_float (v : pyval) : result pyfloat :=
  match v with
  | PNone | PObj => Raise TypeError
  | PFloat f => Ok f
  | PStr s =>
      match float_of_str s with
      | Some f => Ok f
      | None => Raise (ValueError "could not convert string to float")
      end
  end.

(** An input [float] has no number for: [None], NaN, an object of
    another type, or text that [float] rejects. *)
Definition non_numeric (v : pyval) : Prop :=
  match v with
  | PNone | PObj | PFloat FNaN => True
  | PFloat (FNum _) => False
  | PStr s => float_of_str s = None
  end.

(** *** Time codec *)

Fixpoint try_formats (val : string) (fmts : list string) : result date :=
  match fmts with
  | [] => Ok today
  | fmt :: rest =>
      match strptime val fmt with
      | Ok d => Ok (dt_day d)
      | Raise (ValueError _) => try_formats val rest
      | Raise e => Raise e
      end
  end.

Definition parse_interval_date (val : pyval) : result date :=
  match val with
  | PStr s => try_formats s interval_formats
  | _ => Ok today
  end.

Definition seconds_to_excel_time (seconds : pyval) : result (option pyfloat) :=
  match seconds with
  | PNone => Ok None
  | _ =>
      match py_float seconds with
      | Raise TypeError | Raise (ValueError _) => Ok None
      | Raise e => Raise e
      | Ok FNaN => Ok None
      | Ok (FNum s) => Ok (Some (FNum (s / qz 86400)%Qc))
      end
  end.

Definition seconds_to_hhmmss_time (seconds : pyval) : result (option time) :=
  match seconds with
  | PNone => Ok None
  | _ =>
      match py_float seconds ≫= py_round with
      | Raise TypeError | Raise (ValueError _) => Ok None
      | Raise e => Raise e
      | Ok s0 =>
          let s := if s0 <? 0 then 0 else s0 in
          let h := s / 3600 in
          let m := (s mod 3600) / 60 in
          let sec := s mod 60 in
          let hms := if 23 <? h then (23, 59, 59) else (h, m, sec) in
          Some <$> dt_time hms.1.1 hms.1.2 hms.2
      end
  end.

(** *** Loaders: the frame is what [pd.read_csv] returned. *)

Definition load_perf (csv : DataFrame) : DataFrame :=
  if bool_decide ("Media Type" ∈ columns csv) then
    Frame (columns csv)
          (filter (λ r, cell_at r "Media Type" = Str "voice") (rows csv))
  else csv.

Definition load_status (csv : DataFrame) : DataFrame := csv.

Definition load_booking (csv : DataFrame) : DataFrame := csv.

(** *** Aggregators *)

Definition present (df : DataFrame) (cs : list string) : list string :=
  filter (λ c, c ∈ columns df) cs.

Definition perf_metrics : list (string * reducer) :=
  [("Answered", Sum); ("Outbound", Sum); ("Total ACW", Sum);
   ("Avg Handle", Mean); ("Total Handle", Sum)].

Definition status_metrics : list (string * reducer) :=
  [("Logged In", Sum); ("Log In", First); ("Log Out", First)].

Definition aggregate_perf (df : DataFrame) : result DataFrame :=
  let group_cols := present df key_candidates in
  let agg := filter (λ cf, cf.1 ∈ columns df) perf_metrics in
  groupby_agg false group_cols agg df.

Definition aggregate_status (df : DataFrame) : result DataFrame :=
  let group_cols := present df key_candidates in
  let agg := filter (λ cf, cf.1 ∈ columns df) status_metrics in
  groupby_agg false group_cols agg df.

Definition is_name_col (c : string) : bool :=
  bool_decide (upper (strip c) ∈ ["CC_CLERK_NAME"; "AGENT_NAME"; "AGENT NAME"]).

Definition is_count_col (c : string) : bool :=
  occurs "NO_OF_BOOKED_APPT" (upper c) || occurs "BOOKED" (upper c).

(** [series.astype(str)] on a cell. *)
Definition astype_str (c : cell) : string :=
  match c with
  | Null => "nan"
  | Num q => str_of_num q
  | Str s => s
  end.

(** [pd.to_numeric(series, errors='coerce').fillna(0.0)] on a cell. *)
Definition to_numeric_or_zero (c : cell) : cell :=
  match c with
  | Num q => Num q
  | Null => Num (qz 0)
  | Str s => Num (default (qz 0) (to_numeric_str s))
  end.

Definition aggregate_booking (df : DataFrame) : result DataFrame :=
  match head (filter is_name_col (columns df)) with
  | None =>
      Raise (ValueError
        "Booking file does not contain CC_CLERK_NAME / AGENT_NAME column")
  | Some name_col =>
      match head (filter is_count_col (columns df)) with
      | None =>
          Raise (ValueError
            "Booking file does not contain NO_OF_BOOKED_APPT-like column")
      | Some count_col =>
          let df2 := df in
          let df2 :=
            set_column "Agent Name" (λ r, Str (astype_str (cell_at r name_col))) df2 in
          let df2 :=
            set_column "Total Inbound Booking"
              (λ r, to_numeric_or_zero (cell_at r count_col)) df2 in
          groupby_agg false ["Agent Name"] [("Total Inbound Booking", Sum)] df2
      end
  end.

(** *** Merge *)

Definition in_both (a b : DataFrame) (cs : list string) : list string :=
  filter (λ c, c ∈ columns a ∧ c ∈ columns b) cs.

Definition join_cols (perf_agg status_agg : DataFrame) : list string :=
  match in_both perf_agg status_agg key_candidates with
  | [] => in_both perf_agg status_agg ["Agent Id"; "Agent Name"]
  | cs => cs
  end.

Definition merge_perf_status (perf_agg status_agg : DataFrame) : result DataFrame :=
  merge perf_agg status_agg (join_cols perf_agg status_agg)
        ("_perf", "_status") HowOuter.

(** *** Template writer *)

(** [0 if pd.isna(raw) else float(raw)] *)
Definition float_or_zero (raw : pyval) : result pyfloat :=
  if pd_isna raw then Ok (FNum (qz 0)) else py_float raw.

(** [None if pd.isna(raw) else float(raw)] *)
Definition float_or_none (raw : pyval) : result (option pyfloat) :=
  if pd_isna raw then Ok None else Some <$> py_float raw.

Definition opt_float (x : option pyfloat) : pyval :=
  match x with
  | None => PNone
  | Some f => PFloat f
  end.

(** The average handle time of a record, from its total handle time, its
    answered count and the average the export reports:
    [if total_handle_sec and answered: ... else: ...]. *)
Definition avg_handle (total_handle_sec : option pyfloat) (answered : pyfloat)
    (raw_avg_handle : pyval) : result (option pyfloat) :=
  match total_handle_sec with
  | Some th =>
      if truthy th && truthy answered then Some <$> py_div th answered
      else float_or_none raw_avg_handle
  | None => float_or_none raw_avg_handle
  end.

(** [ws[f'X{row_idx}'] = v] where [v] is not [None] *)
Definition put (row_idx col : nat) (v : xlvalue) (ws : sheet) : sheet :=
  set_value (row_idx, col) (Some v) ws.

(** The body of the loop over [df.iterrows()]: fills row [row_idx] of the
    sheet and yields the flat record. *)
Definition write_row (cols : list string) (row_idx : nat) (r : row) (ws : sheet)
    : result (sheet * csv_record) :=
  let agent_name := row_get cols r "Agent Name" (PStr "") in
  let division := row_get cols r "Division Name" (PStr "") in
  let interval_start := row_get cols r "Interval Start" PNone in
  date_val ← match interval_start with
             | PStr _ => parse_interval_date interval_start
             | _ => Ok today
             end;
  let log_in_raw := row_get cols r "Log In" PNone in
  let log_out_raw := row_get cols r "Log Out" PNone in
  let logged_in_seconds := row_get cols r "Logged In" PNone in
  logged_in_duration ← seconds_to_excel_time logged_in_seconds;
  answered ← float_or_zero (row_get cols r "Answered" PNone);
  outbound ← float_or_zero (row_get cols r "Outbound" PNone);
  let inq_amb := answered in
  inbound_booking ←
    float_or_zero (row_get cols r "Total Inbound Booking" (PFloat (FNum (qz 0))));
  total_acw_sec ← float_or_zero (row_get cols r "Total ACW" PNone);
  total_acw_excel ← seconds_to_excel_time (PFloat total_acw_sec);
  total_handle_sec ← float_or_none (row_get cols r "Total Handle" PNone);
  avg_handle_sec ←
    avg_handle total_handle_sec answered (row_get cols r "Avg Handle" PNone);
  avg_handle_time ← seconds_to_hhmmss_time (opt_float avg_handle_sec);
  let ws := put row_idx 1 (XDateTime (DateTime date_val (Time 6 30 0))) ws in
  let ws := set_value (row_idx, 2%nat) (xl_of_py agent_name) ws in
  let ws := set_value (row_idx, 3%nat) (xl_of_py division) ws in
  let ws := set_value (row_idx, 4%nat) (xl_of_py log_in_raw) ws in
  let ws := set_value (row_idx, 5%nat) (xl_of_py log_out_raw) ws in
  let ws := match logged_in_duration with
            | Some d => put row_idx 6 (XFloat d) ws
            | None => ws
            end in
  g ← py_int answered;
  let ws := put row_idx 7 (XInt g) ws in
  h ← py_int inq_amb;
  let ws := put row_idx 8 (XInt h) ws in
  i ← py_int outbound;
  let ws := put row_idx 9 (XInt i) ws in
  j ← py_int inbound_booking;
  let ws := put row_idx 10 (XInt j) ws in
  let n := pretty row_idx in
  let ws := put row_idx 11
    (XStr ("=MAX(0,IFERROR(J" +:+ n +:+ "/(G" +:+ n +:+ "-H" +:+ n +:+ "),0))")) ws in
  let ws := put row_idx 12 (XStr ("=G" +:+ n +:+ "+I" +:+ n)) ws in
  let ws := match total_acw_excel with
            | Some x => put row_idx 13 (XFloat x) ws
            | None => ws
            end in
  let ws := match avg_handle_time with
            | Some t => put row_idx 14 (XTime t) ws
            | None => ws
            end in
  Ok (ws, CsvRecord date_val agent_name division log_in_raw log_out_raw
            logged_in_seconds answered inq_amb outbound inbound_booking
            total_acw_sec avg_handle_sec).

Fixpoint write_rows (cols : list string) (rs : list row) (row_idx : nat) (ws : sheet)
    : result (sheet * list csv_record) :=
  match rs with
  | [] => Ok (ws, [])
  | r :: rs' =>
      wr ← write_row cols row_idx r ws;
      wrs ← write_rows cols rs' (S row_idx) wr.1;
      Ok (wrs.1, wr.2 :: wrs.2)
  end.

(** The clearing pass: columns 1 to 14 of the rows 3 to [max_row]. *)
Definition clear_region (ws : sheet) : sheet :=
  foldl (λ ws r, foldl (λ ws c, set_value (r, c) None ws) ws (seq 1 14))
        ws (seq 3 (max_row ws - 2)).

(** [fill_template]: the work book saved to [out_xlsx] and the records
    written to [out_csv]. *)
Definition fill_template (template : workbook) (df : DataFrame)
    : result (workbook * list csv_record) :=
  match template !! "Sheet1" with
  | None => Raise (KeyError "Worksheet Sheet1 does not exist.")
  | Some ws =>
      out ← write_rows (columns df) (rows df) 3 (clear_region ws);
      Ok (<["Sheet1" := out.1]> template, out.2)
  end.

(** *** Entry point *)

(** The booking step of [run_from_paths]: the left join of the booking
    aggregate, when a booking file is given. *)
Definition enrich (merged : DataFrame) (booking : option DataFrame)
    : result DataFrame :=
  match booking with
  | Some csv =>
      let booking_df := load_booking csv in
      booking_agg ← aggregate_booking booking_df;
      if bool_decide ("Agent Name" ∈ columns merged)
         && bool_decide ("Agent Name" ∈ columns booking_agg)
      then merge merged booking_agg ["Agent Name"] ("_x", "_y") HowLeft
      else Ok merged
  | None => Ok merged
  end.

(** [merged[merged['Agent Name'].notna()]], when the column exists. *)
Definition drop_unnamed (merged : DataFrame) : DataFrame :=
  if bool_decide ("Agent Name" ∈ columns merged)
  then filter_notna "Agent Name" merged else merged.

Definition run_from_paths (perf status : DataFrame) (template : workbook)
    (booking : option DataFrame) : result (workbook * list csv_record) :=
  let perf_df := load_perf perf in
  let status_df := load_status status in
  perf_agg ← aggregate_perf perf_df;
  status_agg ← aggregate_status status_df;
  merged ← merge_perf_status perf_agg status_agg;
  merged ← enrich merged booking;
  fill_template template (drop_unnamed merged).

(** *** What "never drops a row" means for a grouped frame: every row of
    [df] has exactly one row of [out] with its key, and the sizes of the
    groups of the rows of [out] add up to the number of rows of [df]. *)
Definition groups_partition (by_cols : list string) (df out : DataFrame) : Prop :=
  (∀ r, r ∈ rows df →
     length (filter (λ o, row_key by_cols o = row_key by_cols r) (rows out)) = 1%nat)
  ∧ sum_list ((λ o, length (filter (λ r, row_key by_cols r = row_key by_cols o) (rows df)))
                <$> rows out) = length (rows df).


(** *** The booking count of an agent, as the specification words it: the
    counts of the booking rows that carry the agent's name, summed, where a
    count that is no number counts as zero. *)
Definition count_value (c : cell) : Qc :=
  match to_numeric_or_zero c with
  | Num q => q
  | _ => qz 0
  end.

Definition booked_for (df : DataFrame) (name_col count_col : string) (n : string) : Qc :=
  qsum ((λ r, count_value (cell_at r count_col))
          <$> filter (λ r, astype_str (cell_at r name_col) = n) (rows df)).


(** [out] is the per-agent booking table of [df]: one row per name text,
    each with the summed count of that name. *)
Definition booking_aggregate_of (df : DataFrame) (name_col count_col : string)
    (out : DataFrame) : Prop :=
  columns out = ["Agent Name"; "Total Inbound Booking"]
  ∧ NoDup ((λ o, cell_at o "Agent Name") <$> rows out)
  ∧ (∀ o, o ∈ rows out →
       ∃ r, r ∈ rows df
            ∧ cell_at o "Agent Name" = Str (astype_str (cell_at r name_col))
            ∧ cell_at o "Total Inbound Booking"
              = Num (booked_for df name_col count_col (astype_str (cell_at r name_col))))
  ∧ (∀ r, r ∈ rows df →
       ∃ o, o ∈ rows out
            ∧ cell_at o "Agent Name" = Str (astype_str (cell_at r name_col))).


(** *** The size of a full outer join on the key columns [on], as the
    specification counts it: for every key found on either side, the pairs
    of rows of the two sides with that key, or the rows of the one side that
    has it when the other has none. *)
Definition outer_join_count (on : list string) (L R : list row) : nat :=
  sum_list
    ((λ k,
        let nl := length (filter (λ l, row_key on l = k) L) in
        let nr := length (filter (λ r, row_key on r = k) R) in
        match nl, nr with
        | O, _ => nr
        | _, O => nl
        | _, _ => (nl * nr)%nat
        end)
       <$> remove_dups (row_key on <$> (L ++ R))).


(** *** One row of the report, read apart from the sheet

    [write_row] computes the values of a record and writes them as it
    goes.  The two definitions below give the same values without the
    sheet: the record of a row, and the cells that the loop body assigns
    for a record, in the order of the assignments.  [write_row_normal]
    shows that [write_row] is the one followed by the other. *)
Definition row_record (cols : list string) (r : row) : result csv_record :=
  let agent_name := row_get cols r "Agent Name" (PStr "") in
  let division := row_get cols r "Division Name" (PStr "") in
  let interval_start := row_get cols r "Interval Start" PNone in
  date_val ← match interval_start with
             | PStr _ => parse_interval_date interval_start
             | _ => Ok today
             end;
  let logged_in_seconds := row_get cols r "Logged In" PNone in
  _ ← seconds_to_excel_time logged_in_seconds;
  answered ← float_or_zero (row_get cols r "Answered" PNone);
  outbound ← float_or_zero (row_get cols r "Outbound" PNone);
  inbound_booking ←
    float_or_zero (row_get cols r "Total Inbound Booking" (PFloat (FNum (qz 0))));
  total_acw_sec ← float_or_zero (row_get cols r "Total ACW" PNone);
  _ ← seconds_to_excel_time (PFloat total_acw_sec);
  total_handle_sec ← float_or_none (row_get cols r "Total Handle" PNone);
  avg_handle_sec ←
    avg_handle total_handle_sec answered (row_get cols r "Avg Handle" PNone);
  _ ← seconds_to_hhmmss_time (opt_float avg_handle_sec);
  _ ← py_int answered;
  _ ← py_int outbound;
  _ ← py_int inbound_booking;
  Ok (CsvRecord date_val agent_name division
        (row_get cols r "Log In" PNone) (row_get cols r "Log Out" PNone)
        logged_in_seconds answered answered outbound inbound_booking
        total_acw_sec avg_handle_sec).

Definition excel_time_of (v : pyval) : option pyfloat :=
  match seconds_to_excel_time v with
  | Ok o => o
  | Raise _ => None
  end.

Definition clock_of (v : pyval) : option time :=
  match seconds_to_hhmmss_time v with
  | Ok o => o
  | Raise _ => None
  end.

Definition int_of (x : pyfloat) : Z :=
  match py_int x with
  | Ok z => z
  | Raise _ => 0
  end.

(** The assignments of the loop body for a record: (column, value), where
    the value [None] empties the cell. *)
Definition row_writes (rec : csv_record) (row_idx : nat)
    : list (nat * option xlvalue) :=
  let n := pretty row_idx in
  [(1%nat, Some (XDateTime (DateTime (rec_date rec) (Time 6 30 0))));
   (2%nat, xl_of_py (rec_agent_name rec));
   (3%nat, xl_of_py (rec_division_name rec));
   (4%nat, xl_of_py (rec_log_in rec));
   (5%nat, xl_of_py (rec_log_out rec))]
  ++ match excel_time_of (rec_logged_in rec) with
     | Some d => [(6%nat, Some (XFloat d))]
     | None => []
     end
  ++ [(7%nat, Some (XInt (int_of (rec_answered rec))));
      (8%nat, Some (XInt (int_of (rec_inq_amb rec))));
      (9%nat, Some (XInt (int_of (rec_outbound rec))));
      (10%nat, Some (XInt (int_of (rec_inbound_booking rec))));
      (11%nat, Some (XStr ("=MAX(0,IFERROR(J" +:+ n +:+ "/(G" +:+ n +:+ "-H" +:+ n
                           +:+ "),0))")));
      (12%nat, Some (XStr ("=G" +:+ n +:+ "+I" +:+ n)))]
  ++ match excel_time_of (PFloat (rec_acw rec)) with
     | Some x => [(13%nat, Some (XFloat x))]
     | None => []
     end
  ++ match clock_of (opt_float (rec_avg_handle rec)) with
     | Some t => [(14%nat, Some (XTime t))]
     | None => []
     end.

(** A list of assignments ((row, column), value) carried out in order, and
    the value the list assigns last to a position, if any. *)
Definition set_all (ws : sheet) (kvs : list ((nat * nat) * option xlvalue)) : sheet :=
  foldl (λ w kv, set_value kv.1 kv.2 w) ws kvs.

Definition last_set (kvs : list ((nat * nat) * option xlvalue)) (k : nat * nat)
    : option (option xlvalue) :=
  foldl (λ acc kv, if decide (kv.1 = k) then Some kv.2 else acc) None kvs.

Definition keyed (row_idx : nat) (writes : list (nat * option xlvalue))
    : list ((nat * nat) * option xlvalue) :=
  (λ cv, ((row_idx, cv.1), cv.2)) <$> writes.

(** The assignments of the clearing pass and of the loop over the
    records. *)
Definition clear_writes (ws : sheet) : list ((nat * nat) * option xlvalue) :=
  r ← seq 3 (max_row ws - 2); c ← seq 1 14; [((r, c), None)].

Fixpoint rows_writes (row_idx : nat) (recs : list csv_record)
    : list ((nat * nat) * option xlvalue) :=
  match recs with
  | [] => []
  | rec :: recs' =>
      keyed row_idx (row_writes rec row_idx) ++ rows_writes (S row_idx) recs'
  end.

Fixpoint records_of (cols : list string) (rs : list row) : result (list csv_record) :=
  match rs with
  | [] => Ok []
  | r :: rs' =>
      rec ← row_record cols r;
      recs ← records_of cols rs';
      Ok (rec :: recs)
  end.

(** The styles of the cells that exist are kept. *)
Definition style_kept (ws ws' : sheet) : Prop :=
  ∀ k x, ws !! k = Some x → style <$> ws' !! k = Some (style x).


(** The value last assigned to a column by the assignments of one row. *)
Definition written (writes : list (nat * option xlvalue)) (c : nat)
    : option (option xlvalue) :=
  foldl (λ acc cv, if decide (cv.1 = c) then Some cv.2 else acc) None writes.

(** The content of column [c] of the sheet row of a record. *)
Definition expected_cell (rec : csv_record) (row_idx c : nat) : option xlvalue :=
  let n := pretty row_idx in
  match c with
  | 1 => Some (XDateTime (DateTime (rec_date rec) (Time 6 30 0)))
  | 2 => xl_of_py (rec_agent_name rec)
  | 3 => xl_of_py (rec_division_name rec)
  | 4 => xl_of_py (rec_log_in rec)
  | 5 => xl_of_py (rec_log_out rec)
  | 6 => XFloat <$> excel_time_of (rec_logged_in rec)
  | 7 => Some (XInt (int_of (rec_answered rec)))
  | 8 => Some (XInt (int_of (rec_inq_amb rec)))
  | 9 => Some (XInt (int_of (rec_outbound rec)))
  | 10 => Some (XInt (int_of (rec_inbound_booking rec)))
  | 11 => Some (XStr ("=MAX(0,IFERROR(J" +:+ n +:+ "/(G" +:+ n +:+ "-H" +:+ n
                      +:+ "),0))"))
  | 12 => Some (XStr ("=G" +:+ n +:+ "+I" +:+ n))
  | 13 => XFloat <$> excel_time_of (PFloat (rec_acw rec))
  | 14 => XTime <$> clock_of (opt_float (rec_avg_handle rec))
  | _ => None
  end%nat.


(** The reading of the claim on the template writer: a cell whose value
    the writer changes lies in columns A to N of the rows 3 to the last
    row of the sheet as it was. *)
Definition writes_within_prior_rows (ws ws' : sheet) : Prop :=
  ∀ r c, value_at ws' (r, c) ≠ value_at ws (r, c) →
         (3 ≤ r ≤ max_row ws)%nat ∧ (1 ≤ c ≤ 14)%nat.


(** A record with another booking count. *)
Definition with_booking (rec : csv_record) (b : pyfloat) : csv_record :=
  CsvRecord (rec_date rec) (rec_agent_name rec) (rec_division_name rec)
            (rec_log_in rec) (rec_log_out rec) (rec_logged_in rec)
            (rec_answered rec) (rec_inq_amb rec) (rec_outbound rec) b
            (rec_acw rec) (rec_avg_handle rec).

(** The row of the left join for a left row whose key has at most one
    partner. *)
Definition enrich_row (left right : DataFrame) (on : list string)
    (suffixes : string * string) (l : row) : row :=
  match matches_of right on l with
  | [] => left_only left right on suffixes l
  | o :: _ => joined left right on suffixes l o
  end.


(** The booking count of the agent of a record: the summed count of the
    booking rows that carry the agent's name; a name that is not text has
    no booking row. *)
Definition agent_booking (bk : DataFrame) (name_col count_col : string)
    (agent : pyval) : Qc :=
  match agent with
  | PStr n => booked_for bk name_col count_col n
  | _ => qz 0
  end.

(** The columns the writer converts with [float]. *)
Definition number_columns : list string :=
  ["Answered"; "Outbound"; "Total Inbound Booking"; "Total ACW"; "Total Handle";
   "Avg Handle"].

(** The directives of a compiled format, in their order. *)
Definition dirs_of (items : list fitem) : list directive :=
  omap (λ i, match i with FDir d => Some d | _ => None end) items.

(*END_DEFS*)

(* ================================================================ *)
(** ** Properties of the time codec *)
(* ================================================================ *)

(** [round] lands on a nearest integer. *)
Lemma round_half_even_nearest (q : Q) :
  (2 * inject_Z (round_half_even q) - 1 <= 2 * q
   ∧ 2 * q <= 2 * inject_Z (round_half_even q) + 1)%Q.
Proof.
  unfold round_half_even.
  pose proof (Qfloor_le q) as Hlo. pose proof (Qlt_floor q) as Hhi.
  rewrite inject_Z_plus in Hhi. change (inject_Z 1) with 1%Q in Hhi.
  destruct (Qcompare_spec (2 * (q - inject_Z (Qfloor q))) 1) as [He|Hl|Hg].
  - destruct (Z.even (Qfloor q)).
    + split; lra.
    + rewrite inject_Z_plus. change (inject_Z 1) with 1%Q. split; lra.
  - split; lra.
  - rewrite inject_Z_plus. change (inject_Z 1) with 1%Q. split; lra.
Qed.

Lemma round_half_even_sign (q : Q) :
  ((q < 0)%Q → round_half_even q <= 0) ∧
  ((0 <= q)%Q → 0 <= round_half_even q) ∧
  ((86400 <= q)%Q → 86400 <= round_half_even q).
Proof.
  pose proof (round_half_even_nearest q) as [Hlo Hhi].
  set (s := round_half_even q) in *.
  repeat split; intros Hq.
  - destruct (Z_le_gt_dec s 0) as [|Hs]; [done|].
    assert (1 <= s) as Hs1 by lia.
    rewrite (Zle_Qle 1 s) in Hs1. change (inject_Z 1) with 1%Q in Hs1. lra.
  - destruct (Z_le_gt_dec 0 s) as [|Hs]; [done|].
    assert (s <= -1) as Hs1 by lia.
    rewrite (Zle_Qle s (-1)) in Hs1. change (inject_Z (-1)) with (-1)%Q in Hs1. lra.
  - destruct (Z_le_gt_dec 86400 s) as [|Hs]; [done|].
    assert (s <= 86399) as Hs1 by lia.
    rewrite (Zle_Qle s 86399) in Hs1.
    change (inject_Z 86399) with 86399%Q in Hs1. lra.
Qed.

Lemma hhmmss_of_round (s0 : Z) :
  (let s := if s0 <? 0 then 0 else s0 in
   let h := s / 3600 in
   let m := (s mod 3600) / 60 in
   let sec := s mod 60 in
   let hms := if 23 <? h then (23, 59, 59) else (h, m, sec) in
   Some <$> dt_time hms.1.1 hms.1.2 hms.2) = Ok (Some (clamped_clock s0)).
Proof.
  unfold clamped_clock. cbv zeta.
  destruct (Z.ltb_spec s0 0) as [Hneg|Hpos]; [reflexivity|].
  destruct (Z.ltb_spec 23 (s0 / 3600)) as [Hh|Hh].
  - destruct (Z.ltb_spec 86399 s0) as [|Hs]; [reflexivity|].
    exfalso. assert (s0 / 3600 < 24) by (apply Z.div_lt_upper_bound; lia). lia.
  - destruct (Z.ltb_spec 86399 s0) as [Hs|Hs].
    { exfalso. assert (24 <= s0 / 3600) by (apply Z.div_le_lower_bound; lia). lia. }
    assert (0 <= s0 / 3600) by (apply Z.div_pos; lia).
    pose proof (Z.mod_pos_bound s0 3600 ltac:(lia)).
    pose proof (Z.mod_pos_bound s0 60 ltac:(lia)).
    assert (0 <= s0 mod 3600 / 60) by (apply Z.div_pos; lia).
    assert (s0 mod 3600 / 60 < 60) by (apply Z.div_lt_upper_bound; lia).
    unfold dt_time; simpl.
    repeat match goal with
    | |- context [(?a <=? ?b)] => destruct (Z.leb_spec a b); [|lia]
    end.
    reflexivity.
Qed.

Lemma clamped_clock_range (s : Z) :
  0 <= hour (clamped_clock s) <= 23
  ∧ 0 <= minute (clamped_clock s) <= 59
  ∧ 0 <= second (clamped_clock s) <= 59.
Proof.
  unfold clamped_clock.
  destruct (Z.ltb_spec s 0); [simpl; lia|].
  destruct (Z.ltb_spec 86399 s); [simpl; lia|]. simpl.
  assert (0 <= s / 3600) by (apply Z.div_pos; lia).
  assert (s / 3600 < 24) by (apply Z.div_lt_upper_bound; lia).
  pose proof (Z.mod_pos_bound s 3600 ltac:(lia)).
  pose proof (Z.mod_pos_bound s 60 ltac:(lia)).
  assert (0 <= s mod 3600 / 60) by (apply Z.div_pos; lia).
  assert (s mod 3600 / 60 < 60) by (apply Z.div_lt_upper_bound; lia).
  lia.
Qed.

Lemma seconds_to_hhmmss_time_finite (q : Qc) :
  seconds_to_hhmmss_time (PFloat (FNum q))
  = Ok (Some (clamped_clock (round_half_even q))).
Proof. unfold seconds_to_hhmmss_time. simpl. apply hhmmss_of_round. Qed.

Lemma seconds_to_hhmmss_time_non_numeric (v : pyval) :
  non_numeric v → seconds_to_hhmmss_time v = Ok None.
Proof.
  destruct v as [|[q|]|s|]; simpl; try done.
  intros Hs. unfold seconds_to_hhmmss_time, py_float. by rewrite Hs.
Qed.

(** [seconds_to_hhmmss_time] never raises, and what it returns is a time
    of day. *)
Lemma seconds_to_hhmmss_time_total (v : pyval) :
  ∃ r, seconds_to_hhmmss_time v = Ok r
       ∧ ∀ t, r = Some t →
           0 <= hour t <= 23 ∧ 0 <= minute t <= 59 ∧ 0 <= second t <= 59.
Proof.
  assert (seconds_to_hhmmss_time v = Ok None
          ∨ ∃ q, seconds_to_hhmmss_time v
                 = seconds_to_hhmmss_time (PFloat (FNum q))) as [Hn|[q Hq]].
  { destruct v as [|[q|]|s|]; try (by left).
    - right. by exists q.
    - unfold seconds_to_hhmmss_time, py_float.
      destruct (float_of_str s) as [[q|]|]; [right; by exists q|by left..]. }
  - exists None. done.
  - exists (Some (clamped_clock (round_half_even q))).
    rewrite Hq, seconds_to_hhmmss_time_finite. split; [done|].
    intros t [= <-]. apply clamped_clock_range.
Qed.


(* ================================================================ *)
(** ** Lists grouped by a key *)
(* ================================================================ *)

Section gen.
Context {A K : Type} `{EqDecision K}.
Implicit Types (f : A → K) (w : K → nat).

Lemma sum_list_zero (g : K → nat) (ks : list K) :
  (∀ k, k ∈ ks → g k = 0%nat) → sum_list (g <$> ks) = 0%nat.
Proof.
  induction ks as [|k ks IH]; intros Hg; [done|]. csimpl.
  rewrite Hg by set_solver. rewrite IH; [done|]. intros ??. apply Hg. set_solver.
Qed.

Lemma sum_list_plus (g h : K → nat) (ks : list K) :
  sum_list ((λ k, g k + h k)%nat <$> ks)
  = (sum_list (g <$> ks) + sum_list (h <$> ks))%nat.
Proof. induction ks as [|k ks IH]; csimpl; [done|]. rewrite IH. lia. Qed.

Lemma sum_list_pick w (ks : list K) (k0 : K) :
  NoDup ks → k0 ∈ ks →
  sum_list ((λ k, if decide (k0 = k) then w k else 0%nat) <$> ks) = w k0.
Proof.
  induction 1 as [|k ks Hk Hnd IH]; [by intros ?%elem_of_nil|].
  intros [->|Hin]%elem_of_cons; csimpl.
  - rewrite decide_True by done.
    rewrite sum_list_zero; [lia|].
    intros k' Hk'. rewrite decide_False; [done|]. by intros <-.
  - rewrite decide_False by (by intros ->). by rewrite IH.
Qed.

Lemma sum_by_key f w (ks : list K) (l : list A) :
  NoDup ks → (∀ x, x ∈ l → f x ∈ ks) →
  sum_list ((λ k, length (filter (λ x, f x = k) l) * w k)%nat <$> ks)
  = sum_list ((λ x, w (f x)) <$> l).
Proof.
  intros Hnd. induction l as [|x l IH]; intros Hin.
  - csimpl. by apply sum_list_zero.
  - csimpl. rewrite <-IH by set_solver.
    rewrite <-(sum_list_pick w ks (f x)) by set_solver.
    rewrite <-sum_list_plus. f_equal. apply list_fmap_ext; intros _ k _.
    rewrite filter_cons. destruct (decide (f x = k)); simpl; lia.
Qed.

Lemma group_sizes_add_up f (ks : list K) (l : list A) :
  NoDup ks → (∀ x, x ∈ l → f x ∈ ks) →
  sum_list ((λ k, length (filter (λ x, f x = k) l)) <$> ks) = length l.
Proof.
  intros Hnd Hin.
  transitivity (sum_list ((λ x, (λ _, 1%nat) (f x)) <$> l)).
  - rewrite <-(sum_by_key f (λ _, 1%nat) ks l Hnd Hin). f_equal.
    apply list_fmap_ext; intros _ k _. lia.
  - clear. induction l as [|x l IH]; csimpl; [done|]. by rewrite IH.
Qed.

Lemma filter_none_K (P : K → Prop) `{!∀ x, Decision (P x)} (l : list K) :
  (∀ x, x ∈ l → ¬ P x) → filter P l = [].
Proof.
  induction l as [|x l IH]; intros Hl; [done|].
  rewrite filter_cons, decide_False by (apply Hl; set_solver).
  apply IH. intros ??. apply Hl. set_solver.
Qed.

Lemma filter_none (P : A → Prop) `{!∀ x, Decision (P x)} (l : list A) :
  (∀ x, x ∈ l → ¬ P x) → filter P l = [].
Proof.
  induction l as [|x l IH]; intros Hl; [done|].
  rewrite filter_cons, decide_False by (apply Hl; set_solver).
  apply IH. intros ??. apply Hl. set_solver.
Qed.

Lemma one_match (ks : list K) (k0 : K) :
  NoDup ks → k0 ∈ ks → length (filter (λ k, k = k0) ks) = 1%nat.
Proof.
  induction 1 as [|k ks Hk Hnd IH]; [by intros ?%elem_of_nil|].
  intros [->|Hin]%elem_of_cons; rewrite filter_cons.
  - rewrite decide_True by done. simpl. f_equal.
    apply length_zero_iff_nil. apply filter_none_K. intros k' ? ->. done.
  - rewrite decide_False by (by intros ->). by apply IH.
Qed.

Lemma filter_fmap_comm {B} (g : A → B) (P : B → Prop) `{!∀ b, Decision (P b)} (l : list A) :
  filter P (g <$> l) = g <$> filter (λ x, P (g x)) l.
Proof.
  induction l as [|x l IH]; [done|]. csimpl. rewrite !filter_cons. 
  destruct (decide (P (g x))); csimpl; by rewrite IH.
Qed.
End gen.

Lemma row_key_length ks r : length (row_key ks r) = length ks.
Proof. unfold row_key. by rewrite length_fmap. Qed.

Lemma cell_at_list_to_map_zip (ks : list string) (k : list cell) (rest : list (string * cell)) :
  NoDup ks → length k = length ks →
  cell_at (list_to_map (zip ks k ++ rest)) <$> ks = k.
Proof.
  intros Hnd Hlen. apply list_eq; intros i. rewrite list_lookup_fmap.
  destruct (ks !! i) as [c|] eqn:Hc; simpl.
  - destruct (lookup_lt_is_Some_2 k i) as [v Hv].
    { rewrite Hlen. by eapply lookup_lt_Some. }
    rewrite Hv. f_equal. unfold cell_at.
    rewrite list_to_map_app, lookup_union_l'.
    + erewrite elem_of_list_to_map_1; [done| |].
      * rewrite fst_zip by lia. done.
      * apply list_elem_of_lookup. exists i. by apply lookup_zip_with_Some; eauto.
    + eexists. apply elem_of_list_to_map_1.
      * rewrite fst_zip by lia. done.
      * apply list_elem_of_lookup. exists i. apply lookup_zip_with_Some; eauto.
  - symmetry. apply lookup_ge_None. rewrite Hlen. by apply lookup_ge_None.
Qed.

Lemma row_key_agg_row by_cols spec k ms :
  NoDup by_cols → length k = length by_cols →
  row_key by_cols (agg_row by_cols spec k ms) = k.
Proof. intros. unfold row_key, agg_row. by apply cell_at_list_to_map_zip. Qed.

Lemma elem_of_group_keys dropna by_cols rs k :
  k ∈ group_keys dropna by_cols rs
  ↔ ∃ r, r ∈ grouped_rows dropna by_cols rs ∧ row_key by_cols r = k.
Proof.
  unfold group_keys. rewrite merge_sort_Permutation, elem_of_remove_dups, list_elem_of_fmap.
  split; [intros (r & -> & Hr); by exists r|intros (r & Hr & <-); by exists r].
Qed.

Lemma NoDup_group_keys dropna by_cols rs : NoDup (group_keys dropna by_cols rs).
Proof. unfold group_keys. rewrite merge_sort_Permutation. apply NoDup_remove_dups. Qed.

Lemma group_keys_length dropna by_cols rs k :
  k ∈ group_keys dropna by_cols rs → length k = length by_cols.
Proof. intros (r & _ & <-)%elem_of_group_keys. apply row_key_length. Qed.

Lemma filter_ext_in {A} (P Q : A → Prop) `{!∀ x, Decision (P x)} `{!∀ x, Decision (Q x)}
    (l : list A) :
  (∀ x, x ∈ l → P x ↔ Q x) → filter P l = filter Q l.
Proof.
  induction l as [|x l IH]; intros HPQ; [done|].
  rewrite !filter_cons.
  destruct (decide (P x)) as [HP|HP], (decide (Q x)) as [HQ|HQ].
  - f_equal. apply IH. intros ??; apply HPQ. by apply elem_of_cons; right.
  - exfalso. apply HQ, HPQ; [by apply elem_of_cons; left|done].
  - exfalso. apply HP, HPQ; [by apply elem_of_cons; left|done].
  - apply IH. intros ??; apply HPQ. by apply elem_of_cons; right.
Qed.

Lemma groupby_agg_partition by_cols spec df :
  by_cols ≠ [] → NoDup by_cols →
  ∃ out, groupby_agg false by_cols spec df = Ok out
         ∧ columns out = by_cols ++ spec.*1
         ∧ length (rows out) = length (group_keys false by_cols (rows df))
         ∧ groups_partition by_cols df out.
Proof.
  intros Hne Hnd. unfold groupby_agg. destruct by_cols as [|c0 cs] eqn:Hby; [done|].
  rewrite <-Hby in *. clear Hby Hne.
  eexists. split; [done|]. split; [done|]. simpl. split; [by rewrite length_fmap|].
  set (ks := group_keys false by_cols (rows df)).
  set (mk := λ k, agg_row by_cols spec k (group_members false by_cols (rows df) k)).
  assert (∀ k, k ∈ ks → row_key by_cols (mk k) = k) as Hkey.
  { intros k Hk. apply row_key_agg_row; [done|]. by eapply group_keys_length. }
  split; simpl.
  - intros r Hr. rewrite filter_fmap_comm, length_fmap.
    rewrite (filter_ext_in _ (λ k, k = row_key by_cols r)).
    + apply one_match; [apply NoDup_group_keys|].
      apply elem_of_group_keys. by exists r.
    + intros k Hk. by rewrite Hkey.
  - rewrite <-list_fmap_compose.
    rewrite <-(group_sizes_add_up (row_key by_cols) ks (rows df)).
    + f_equal. apply list_fmap_ext. intros i k Hk. simpl.
      rewrite Hkey; [done|]. by eapply list_elem_of_lookup_2.
    + apply NoDup_group_keys.
    + intros r Hr. apply elem_of_group_keys. by exists r.
Qed.

Lemma NoDup_key_candidates : NoDup key_candidates.
Proof. compute_done. Qed.

Lemma NoDup_present df : NoDup (present df key_candidates).
Proof. apply NoDup_filter, NoDup_key_candidates. Qed.

Lemma elem_of_present df cs c : c ∈ present df cs ↔ c ∈ columns df ∧ c ∈ cs.
Proof. unfold present. by rewrite list_elem_of_filter. Qed.



(* ================================================================ *)
(** ** Dates *)
(* ================================================================ *)

Lemma dt_date_raises (y m d : Z) (e : exn) :
  dt_date y m d = Raise e → ∃ msg, e = ValueError msg.
Proof.
  unfold dt_date. repeat case_match; intros [= <-]; eauto.
Qed.

Lemma dt_time_raises (h m s : Z) (e : exn) :
  dt_time h m s = Raise e → ∃ msg, e = ValueError msg.
Proof.
  unfold dt_time. repeat case_match; intros [= <-]; eauto.
Qed.

(** [strptime] raises nothing but [ValueError]. *)
Lemma strptime_raises (data fmt : string) (e : exn) :
  strptime data fmt = Raise e → ∃ msg, e = ValueError msg.
Proof.
  unfold strptime.
  destruct (compile_format _) as [items|]; [|intros [= <-]; eauto].
  destruct (fmatch _ _) as [|[groups rest] ?]; [intros [= <-]; eauto|].
  destruct rest; [|intros [= <-]; eauto].
  destruct (dt_date _ _ _) as [d|e'] eqn:Hd; simpl.
  - destruct (dt_time _ _ _) as [t|e''] eqn:Ht; simpl; [done|].
    intros [= <-]. by eapply dt_time_raises.
  - intros [= <-]. by eapply dt_date_raises.
Qed.

(** C9. For a timestamp that the month-first format accepts,
    [parse_interval_date] returns the day-first reading whenever the
    day-first format accepts it too; the month-first reading is returned
    only when the day-first format rejects the text. *)
Theorem parse_interval_date_day_first (s : string) (d2 : datetime) :
  strptime s "%m/%d/%y %H:%M" = Ok d2 →
  match strptime s "%d/%m/%y %H:%M" with
  | Ok d1 => parse_interval_date (PStr s) = Ok (dt_day d1)
  | Raise _ => parse_interval_date (PStr s) = Ok (dt_day d2)
  end.
Proof.
  intros H2. unfold parse_interval_date, interval_formats, try_formats.
  destruct (strptime s "%d/%m/%y %H:%M") as [d1|e] eqn:H1; [done|].
  destruct (strptime_raises _ _ _ H1) as [msg ->]. by rewrite H2.
Qed.

(** [parse_interval_date] never raises. *)
Lemma parse_interval_date_ok (v : pyval) : ∃ d, parse_interval_date v = Ok d.
Proof.
  destruct v as [| |s|]; simpl; eauto.
  unfold interval_formats, try_formats.
  destruct (strptime s "%d/%m/%y %H:%M") as [d1|e] eqn:H1; [eauto|].
  destruct (strptime_raises _ _ _ H1) as [msg ->].
  destruct (strptime s "%m/%d/%y %H:%M") as [d2|e] eqn:H2; [eauto|].
  destruct (strptime_raises _ _ _ H2) as [msg' ->]. eauto.
Qed.


(* ================================================================ *)
(** ** The booking aggregate *)
(* ================================================================ *)

Lemma cell_at_insert (r : row) (c c' : string) (v : cell) :
  cell_at (<[c := v]> r) c' = if decide (c = c') then v else cell_at r c'.
Proof.
  unfold cell_at. destruct (decide (c = c')) as [->|Hne].
  - by rewrite lookup_insert_eq.
  - by rewrite lookup_insert_ne.
Qed.

Lemma groupby_agg_ok (by_cols : list string) (spec : list (string * reducer))
    (df : DataFrame) :
  by_cols ≠ [] →
  groupby_agg false by_cols spec df
  = Ok (Frame (by_cols ++ spec.*1)
          ((λ k, agg_row by_cols spec k (group_members false by_cols (rows df) k))
             <$> group_keys false by_cols (rows df))).
Proof. unfold groupby_agg. by destruct by_cols. Qed.

Lemma groupby_agg_keys (by_cols : list string) (spec : list (string * reducer))
    (rs : list row) :
  NoDup by_cols →
  row_key by_cols
    <$> ((λ k, agg_row by_cols spec k (group_members false by_cols rs k))
           <$> group_keys false by_cols rs)
  = group_keys false by_cols rs.
Proof.
  intros Hnd. rewrite <-list_fmap_compose. rewrite <-(list_fmap_id (group_keys _ _ _)) at 2.
  apply list_fmap_ext. intros i k Hk. simpl.
  apply row_key_agg_row; [done|]. eapply group_keys_length, list_elem_of_lookup_2, Hk.
Qed.

Lemma to_numeric_or_zero_value (c : cell) : to_numeric_or_zero c = Num (count_value c).
Proof. unfold count_value. by destruct c. Qed.

Lemma nums_Num {A} (f : A → Qc) (l : list A) : nums ((λ x, Num (f x)) <$> l) = f <$> l.
Proof. induction l as [|x l IH]; csimpl; [done|]. by rewrite IH. Qed.

Lemma head_filter_None {A} (P : A → Prop) `{!∀ x, Decision (P x)} (l : list A) :
  head (filter P l) = None ↔ ¬ ∃ x, x ∈ l ∧ P x.
Proof.
  rewrite head_None. split.
  - intros Hnil (x & Hx & HP). by eapply filter_nil_not_elem_of.
  - intros Hno. apply filter_none. intros x Hx HP. apply Hno. eauto.
Qed.

Lemma head_filter_P {A} (P : A → Prop) `{!∀ x, Decision (P x)} (l : list A) (x : A) :
  head (filter P l) = Some x → x ∈ l ∧ P x.
Proof.
  intros Hh. assert (x ∈ filter P l) as Hin.
  { destruct (filter P l); simplify_eq/=. by apply elem_of_cons; left. }
  by apply list_elem_of_filter in Hin as [? ?].
Qed.


Lemma is_count_col_not_agent_name (c : string) : is_count_col c → c ≠ "Agent Name".
Proof. intros Hc ->. by vm_compute in Hc. Qed.

Section booking.
Context (df : DataFrame) (name_col count_col : string).
Hypothesis Hname : head (filter is_name_col (columns df)) = Some name_col.
Hypothesis Hcount : head (filter is_count_col (columns df)) = Some count_col.

(** The booking rows after the two column assignments. *)
Let prepared (r : row) : row :=
  <["Total Inbound Booking" := Num (count_value (cell_at r count_col))]>
    (<["Agent Name" := Str (astype_str (cell_at r name_col))]> r).

Let booking_frame : DataFrame :=
  set_column "Total Inbound Booking" (λ r, to_numeric_or_zero (cell_at r count_col))
    (set_column "Agent Name" (λ r, Str (astype_str (cell_at r name_col))) df).

Lemma booking_frame_rows : rows booking_frame = prepared <$> rows df.
Proof.
  unfold booking_frame, set_column; simpl. rewrite <-list_fmap_compose.
  apply list_fmap_ext. intros i r _. simpl. unfold prepared.
  rewrite to_numeric_or_zero_value, cell_at_insert, decide_False; [done|].
  intros Heq. eapply is_count_col_not_agent_name; [|by symmetry].
  by apply head_filter_P in Hcount as [_ ?].
Qed.

Lemma prepared_key (r : row) :
  row_key ["Agent Name"] (prepared r) = [Str (astype_str (cell_at r name_col))].
Proof.
  unfold row_key, prepared; simpl. rewrite !cell_at_insert.
  rewrite decide_False by done. by rewrite decide_True.
Qed.

Lemma prepared_count (r : row) :
  cell_at (prepared r) "Total Inbound Booking" = Num (count_value (cell_at r count_col)).
Proof. unfold prepared. by rewrite cell_at_insert, decide_True. Qed.

Lemma booking_group_keys (k : list cell) :
  k ∈ group_keys false ["Agent Name"] (rows booking_frame)
  ↔ ∃ r, r ∈ rows df ∧ k = [Str (astype_str (cell_at r name_col))].
Proof.
  rewrite elem_of_group_keys. unfold grouped_rows. rewrite booking_frame_rows. split.
  - intros (r2 & (r & -> & Hr)%list_elem_of_fmap & <-). exists r.
    split; [done|]. apply prepared_key.
  - intros (r & Hr & ->). exists (prepared r). split; [|apply prepared_key].
    apply list_elem_of_fmap. eauto.
Qed.

Lemma booking_group_total (n : string) :
  reduce Sum ((λ r, cell_at r "Total Inbound Booking")
                <$> group_members false ["Agent Name"] (rows booking_frame) [Str n])
  = Num (booked_for df name_col count_col n).
Proof.
  unfold group_members, grouped_rows, booked_for. rewrite booking_frame_rows.
  rewrite filter_fmap_comm, <-list_fmap_compose. cbn [reduce]. do 2 f_equal.
  rewrite (filter_ext_in _ (λ r, astype_str (cell_at r name_col) = n)).
  2:{ intros r _. rewrite prepared_key. split; [by intros [= ?]|by intros ->]. }
  rewrite <-(nums_Num (λ r, count_value (cell_at r count_col))). f_equal.
  apply list_fmap_ext. intros i r _. apply prepared_count.
Qed.

Lemma aggregate_booking_result :
  aggregate_booking df
  = Ok (Frame ["Agent Name"; "Total Inbound Booking"]
          ((λ k, agg_row ["Agent Name"] [("Total Inbound Booking", Sum)] k
                   (group_members false ["Agent Name"] (rows booking_frame) k))
             <$> group_keys false ["Agent Name"] (rows booking_frame))).
Proof. unfold aggregate_booking. by rewrite Hname, Hcount. Qed.
End booking.


Lemma aggregate_booking_spec (df : DataFrame) (name_col count_col : string) :
  head (filter is_name_col (columns df)) = Some name_col →
  head (filter is_count_col (columns df)) = Some count_col →
  ∃ out, aggregate_booking df = Ok out
         ∧ booking_aggregate_of df name_col count_col out.
Proof.
  intros Hname Hcount. eexists. split; [by apply aggregate_booking_result|].
  set (rs := rows (set_column _ _ _)).
  set (mk := λ k, agg_row ["Agent Name"] [("Total Inbound Booking", Sum)] k
                    (group_members false ["Agent Name"] rs k)).
  assert (∀ n, cell_at (mk [Str n]) "Agent Name" = Str n
               ∧ cell_at (mk [Str n]) "Total Inbound Booking"
                 = Num (booked_for df name_col count_col n)) as Hmk.
  { intros n. unfold mk, agg_row; simpl. rewrite !cell_at_insert.
    rewrite decide_True by done. split; [done|].
    rewrite decide_False by done. rewrite decide_True by done.
    by apply booking_group_total. }
  split; [done|]. simpl. split; [|split].
  - apply (NoDup_fmap_1 (λ c, [c])).
    rewrite <-(list_fmap_compose (λ o : row, cell_at o "Agent Name") (λ c, [c])).
    change ((λ c, [c]) ∘ (λ o : row, cell_at o "Agent Name"))
      with (row_key ["Agent Name"]).
    unfold mk. rewrite groupby_agg_keys by compute_done. apply NoDup_group_keys.
  - intros o (k & -> & Hk)%list_elem_of_fmap.
    apply (booking_group_keys df name_col count_col Hcount) in Hk as (r & Hr & ->).
    exists r. split; [done|]. apply Hmk.
  - intros r Hr. exists (mk [Str (astype_str (cell_at r name_col))]). split; [|apply Hmk].
    apply list_elem_of_fmap. eexists; split; [done|].
    apply (booking_group_keys df name_col count_col Hcount). eauto.
Qed.


Lemma filter_all {A} (P : A → Prop) `{!∀ x, Decision (P x)} (l : list A) :
  (∀ x, x ∈ l → P x) → filter P l = l.
Proof.
  induction l as [|x l IH]; intros Hl; [done|].
  rewrite filter_cons, decide_True by (apply Hl; by apply elem_of_cons; left).
  f_equal. apply IH. intros ??. apply Hl. by apply elem_of_cons; right.
Qed.

Lemma head_filter_is_Some {A} (P : A → Prop) `{!∀ x, Decision (P x)} (l : list A) :
  (∃ x, x ∈ l ∧ P x) → ∃ y, head (filter P l) = Some y.
Proof.
  intros Hex. destruct (head (filter P l)) as [y|] eqn:Hh; [eauto|].
  by apply head_filter_None in Hh.
Qed.




(* ================================================================ *)
(** ** Merging *)
(* ================================================================ *)

Lemma lookup_list_to_map_cols (f : string → cell) (cs : list string) (c : string) :
  (list_to_map ((λ c, (c, f c)) <$> cs) : row) !! c
  = if decide (c ∈ cs) then Some (f c) else None.
Proof.
  induction cs as [|c' cs IH].
  - rewrite fmap_nil, list_to_map_nil, lookup_empty.
    by rewrite decide_False by apply not_elem_of_nil.
  - rewrite fmap_cons, list_to_map_cons.
    destruct (decide (c' = c)) as [->|Hne].
    + rewrite lookup_insert_eq.
      by rewrite decide_True by (by apply elem_of_cons; left).
    + rewrite lookup_insert_ne, IH by done.
      destruct (decide (c ∈ cs)) as [Hin|Hnin].
      * by rewrite decide_True by (by apply elem_of_cons; right).
      * rewrite decide_False; [done|]. by intros [->|?]%elem_of_cons.
Qed.

Lemma cell_at_two_parts (f g : string → cell) (cs1 cs2 : list string) (c : string) :
  cell_at (list_to_map (((λ c, (c, f c)) <$> cs1) ++ ((λ c, (c, g c)) <$> cs2))) c
  = if decide (c ∈ cs1) then f c
    else if decide (c ∈ cs2) then g c else Null.
Proof.
  unfold cell_at. rewrite list_to_map_app, lookup_union, !lookup_list_to_map_cols.
  destruct (decide (c ∈ cs1)), (decide (c ∈ cs2)); done.
Qed.

Lemma length_bind {A B} (f : A → list B) (l : list A) :
  length (l ≫= f) = sum_list ((λ x, length (f x)) <$> l).
Proof. induction l as [|x l IH]; csimpl; [done|]. by rewrite length_app, IH. Qed.

Lemma length_filter_sum {A} (P : A → Prop) `{!∀ x, Decision (P x)} (l : list A) :
  length (filter P l) = sum_list ((λ x, if decide (P x) then 1%nat else 0%nat) <$> l).
Proof.
  induction l as [|x l IH]; csimpl; [done|]. rewrite filter_cons.
  destruct (decide (P x)); simpl; by rewrite IH.
Qed.

Section merge_facts.
Context (left right : DataFrame) (on : list string) (suffixes : string * string).
(** The frames share no column but the keys, and hold the keys. *)
Hypothesis Hshared : ∀ c, c ∈ columns left → c ∈ columns right → c ∈ on.
Hypothesis Hon_l : ∀ c, c ∈ on → c ∈ columns left.
Hypothesis Hon_r : ∀ c, c ∈ on → c ∈ columns right.

Lemma no_overlap (c : string) : overlaps left right on c = false.
Proof.
  unfold overlaps.
  destruct (bool_decide_reflect (c ∈ columns left)) as [Hl|]; [|done].
  destruct (bool_decide_reflect (c ∈ columns right)) as [Hr|]; [|done].
  simpl. rewrite bool_decide_eq_true_2; [done|]. by apply Hshared.
Qed.

Lemma left_name_id (c : string) : left_name left right on suffixes c = c.
Proof. unfold left_name. by rewrite no_overlap. Qed.

Lemma right_name_id (c : string) : right_name left right on suffixes c = c.
Proof. unfold right_name. by rewrite no_overlap. Qed.

Lemma merged_columns_plain :
  merged_columns left right on suffixes
  = columns left ++ filter (λ c, c ∉ on) (columns right).
Proof.
  unfold merged_columns, right_rest. f_equal.
  - rewrite <-(list_fmap_id (columns left)) at 2.
    apply list_fmap_ext. intros ???. apply left_name_id.
  - rewrite <-(list_fmap_id (filter _ _)) at 2.
    apply list_fmap_ext. intros ???. apply right_name_id.
Qed.

Lemma elem_of_right_rest (c : string) :
  c ∈ right_rest right on ↔ c ∈ columns right ∧ c ∉ on.
Proof. unfold right_rest. rewrite list_elem_of_filter. by split; intros [? ?]. Qed.

Lemma not_left_of_right_rest (c : string) :
  c ∈ right_rest right on → c ∉ columns left.
Proof. intros [Hr Hno]%elem_of_right_rest Hl. apply Hno. by apply Hshared. Qed.

Lemma row_parts (f g : string → cell) :
  list_to_map
    (((λ c, (left_name left right on suffixes c, f c)) <$> columns left) ++
     ((λ c, (right_name left right on suffixes c, g c)) <$> right_rest right on))
  = (list_to_map (((λ c, (c, f c)) <$> columns left) ++
                  ((λ c, (c, g c)) <$> right_rest right on)) : row).
Proof.
  f_equal. f_equal.
  - apply list_fmap_ext. intros ???. by rewrite left_name_id.
  - apply list_fmap_ext. intros ???. by rewrite right_name_id.
Qed.

Lemma cell_at_joined (l r : row) (c : string) :
  cell_at (joined left right on suffixes l r) c
  = if decide (c ∈ columns left) then cell_at l c
    else if decide (c ∈ right_rest right on) then cell_at r c else Null.
Proof. unfold joined. by rewrite row_parts, cell_at_two_parts. Qed.

Lemma cell_at_left_only (l : row) (c : string) :
  cell_at (left_only left right on suffixes l) c
  = if decide (c ∈ columns left) then cell_at l c else Null.
Proof.
  unfold left_only. rewrite row_parts, cell_at_two_parts.
  by repeat case_decide.
Qed.

Lemma cell_at_right_only (r : row) (c : string) :
  cell_at (right_only left right on suffixes r) c
  = if decide (c ∈ columns left)
    then (if bool_decide (c ∈ on) then cell_at r c else Null)
    else if decide (c ∈ right_rest right on) then cell_at r c else Null.
Proof. unfold right_only. by rewrite row_parts, cell_at_two_parts. Qed.

Lemma row_key_eq_cell (a b : row) (c : string) :
  row_key on a = row_key on b → c ∈ on → cell_at a c = cell_at b c.
Proof.
  unfold row_key. intros Hk Hc. apply list_elem_of_lookup in Hc as [i Hi].
  assert ((cell_at a <$> on) !! i = (cell_at b <$> on) !! i) as Hi' by by rewrite Hk.
  rewrite !list_lookup_fmap, Hi in Hi'. by injection Hi'.
Qed.

(** A joined row reads as its left row on the left columns and as its
    right row on the right columns. *)
Lemma joined_left (l r : row) (c : string) :
  c ∈ columns left → cell_at (joined left right on suffixes l r) c = cell_at l c.
Proof. intros Hc. by rewrite cell_at_joined, decide_True. Qed.

Lemma joined_right (l r : row) (c : string) :
  row_key on r = row_key on l → c ∈ columns right →
  cell_at (joined left right on suffixes l r) c = cell_at r c.
Proof.
  intros Hk Hc. rewrite cell_at_joined.
  destruct (decide (c ∈ columns left)) as [Hl|Hl].
  - symmetry. apply row_key_eq_cell; [done|]. by apply Hshared.
  - rewrite decide_True; [done|]. apply elem_of_right_rest. split; [done|].
    intros Hon. by apply Hl, Hon_l.
Qed.

Lemma right_only_right (r : row) (c : string) :
  c ∈ columns right → cell_at (right_only left right on suffixes r) c = cell_at r c.
Proof.
  intros Hc. rewrite cell_at_right_only.
  destruct (decide (c ∈ columns left)) as [Hl|Hl].
  - by rewrite bool_decide_eq_true_2 by by apply Hshared.
  - rewrite decide_True; [done|]. apply elem_of_right_rest. split; [done|].
    intros Hon. by apply Hl, Hon_l.
Qed.

Lemma right_only_left_null (r : row) (c : string) :
  c ∈ columns left → c ∉ on →
  cell_at (right_only left right on suffixes r) c = Null.
Proof.
  intros Hl Hno. rewrite cell_at_right_only, decide_True by done.
  by rewrite bool_decide_eq_false_2.
Qed.

Lemma left_only_left (l : row) (c : string) :
  c ∈ columns left → cell_at (left_only left right on suffixes l) c = cell_at l c.
Proof. intros Hc. by rewrite cell_at_left_only, decide_True. Qed.

Lemma left_only_right_null (l : row) (c : string) :
  c ∈ columns right → c ∉ on →
  cell_at (left_only left right on suffixes l) c = Null.
Proof.
  intros Hr Hno. rewrite cell_at_left_only, decide_False; [done|].
  intros Hl. by apply Hno, Hshared.
Qed.
End merge_facts.


Section merge_rows.
Context (left right : DataFrame) (on : list string) (suffixes : string * string).
Hypothesis Hshared : ∀ c, c ∈ columns left → c ∈ columns right → c ∈ on.
Hypothesis Hon_l : ∀ c, c ∈ on → c ∈ columns left.
Hypothesis Hon_r : ∀ c, c ∈ on → c ∈ columns right.

Let outer_rows : list row :=
  left_join_rows left right on suffixes
  ++ (right_only left right on suffixes <$> unmatched_right left right on).

(** Every left row is in the left join: joined with its partners, or alone
    with the right columns missing. *)
Lemma left_rows_appear (l : row) :
  l ∈ rows left →
  ∃ m, m ∈ left_join_rows left right on suffixes
       ∧ (∀ c, c ∈ columns left → cell_at m c = cell_at l c)
       ∧ (matches_of right on l = [] →
          ∀ c, c ∈ columns right → c ∉ on → cell_at m c = Null).
Proof.
  intros Hl. unfold left_join_rows.
  destruct (matches_of right on l) as [|r ms] eqn:Hm.
  - exists (left_only left right on suffixes l). split; [|split].
    + apply list_elem_of_bind. exists l. split; [|done].
      rewrite Hm. by apply list_elem_of_singleton.
    + intros c Hc. by apply left_only_left.
    + intros _ c Hr Hno. by apply left_only_right_null.
  - exists (joined left right on suffixes l r). split; [|split; [|done]].
    + apply list_elem_of_bind. exists l. split; [|done].
      rewrite Hm. apply list_elem_of_fmap. exists r. split; [done|].
      by apply elem_of_cons; left.
    + intros c Hc. by apply joined_left.
Qed.

(** Every right row is in the outer join: joined with a partner, or alone
    with the left columns that are no key missing. *)
Lemma right_rows_appear (r : row) :
  r ∈ rows right →
  ∃ m, m ∈ outer_rows
       ∧ (∀ c, c ∈ columns right → cell_at m c = cell_at r c)
       ∧ (r ∈ unmatched_right left right on →
          ∀ c, c ∈ columns left → c ∉ on → cell_at m c = Null).
Proof.
  intros Hr. unfold outer_rows.
  destruct (decide (Forall (λ l, row_key on l ≠ row_key on r) (rows left)))
    as [Hall|Hsome].
  - exists (right_only left right on suffixes r). split; [|split].
    + apply elem_of_app; right. apply list_elem_of_fmap. exists r. split; [done|].
      unfold unmatched_right. by apply list_elem_of_filter.
    + intros c Hc. by apply right_only_right.
    + intros _ c Hc Hno. by apply right_only_left_null.
  - apply not_Forall_Exists in Hsome; [|apply _].
    apply Exists_exists in Hsome as (l & Hl & Hk).
    assert (row_key on r = row_key on l) as Hkey.
    { destruct (decide (row_key on r = row_key on l)) as [|Hne]; [done|].
      exfalso. apply Hk. congruence. }
    exists (joined left right on suffixes l r). split; [|split].
    + apply elem_of_app; left. unfold left_join_rows.
      apply list_elem_of_bind. exists l. split; [|done].
      assert (r ∈ matches_of right on l) as Hin.
      { unfold matches_of. by apply list_elem_of_filter. }
      destruct (matches_of right on l) as [|r' ms]; [by apply elem_of_nil in Hin|].
      apply list_elem_of_fmap. eauto.
    + intros c Hc. by apply joined_right.
    + intros [Hun _]%list_elem_of_filter. exfalso.
      rewrite Forall_forall in Hun. by apply (Hun l Hl).
Qed.

(** The number of rows of the outer join is the count of the
    specification. *)
Lemma outer_rows_count :
  length outer_rows = outer_join_count on (rows left) (rows right).
Proof.
  unfold outer_rows, outer_join_count.
  set (ks := remove_dups (row_key on <$> (rows left ++ rows right))).
  assert (NoDup ks) as Hnd by apply NoDup_remove_dups.
  assert (∀ x, x ∈ rows left → row_key on x ∈ ks) as HL.
  { intros x Hx. apply elem_of_remove_dups, list_elem_of_fmap.
    exists x. split; [done|]. apply elem_of_app. by left. }
  assert (∀ x, x ∈ rows right → row_key on x ∈ ks) as HR.
  { intros x Hx. apply elem_of_remove_dups, list_elem_of_fmap.
    exists x. split; [done|]. apply elem_of_app. by right. }
  set (nl := λ k, length (filter (λ l, row_key on l = k) (rows left))).
  set (nr := λ k, length (filter (λ r, row_key on r = k) (rows right))).
  rewrite length_app, length_fmap.
  assert (length (left_join_rows left right on suffixes)
          = sum_list ((λ k, nl k * (match nr k with O => 1 | n => n end))%nat <$> ks))
    as ->.
  { unfold left_join_rows. rewrite length_bind. unfold nl.
    rewrite (sum_by_key (row_key on) (λ k, match nr k with O => 1%nat | n => n end)
               ks (rows left) Hnd HL).
    f_equal. apply list_fmap_ext. intros _ l _. unfold nr, matches_of.
    destruct (filter _ (rows right)) as [|r' ms]; [done|].
    by rewrite length_fmap. }
  assert (length (unmatched_right left right on)
          = sum_list ((λ k, nr k * (match nl k with O => 1 | _ => 0 end))%nat <$> ks))
    as ->.
  { unfold unmatched_right. rewrite length_filter_sum. unfold nr.
    rewrite (sum_by_key (row_key on) (λ k, match nl k with O => 1%nat | _ => 0%nat end)
               ks (rows right) Hnd HR).
    f_equal. apply list_fmap_ext. intros _ r _. unfold nl.
    destruct (filter (λ l, row_key on l = row_key on r) (rows left)) as [|l ls] eqn:Hf.
    - rewrite decide_True; [done|]. apply Forall_forall. intros l Hl Hk.
      by eapply (filter_nil_not_elem_of _ _ l Hf).
    - rewrite decide_False; [done|]. intros Hall. rewrite Forall_forall in Hall.
      assert (l ∈ filter (λ l, row_key on l = row_key on r) (rows left)) as Hin.
      { rewrite Hf. by apply elem_of_cons; left. }
      apply list_elem_of_filter in Hin as [Hk Hl]. by apply (Hall l Hl). }
  rewrite <-sum_list_plus. f_equal. apply list_fmap_ext. intros _ k _.
  change (length (filter (λ l, row_key on l = k) (rows left))) with (nl k).
  change (length (filter (λ r, row_key on r = k) (rows right))) with (nr k).
  cbv zeta. destruct (nl k), (nr k); lia.
Qed.

Lemma merge_outer_ok :
  on ≠ [] →
  merge left right on suffixes HowOuter
  = Ok (Frame (merged_columns left right on suffixes) (merge_sort (row_le on) outer_rows)).
Proof. unfold merge. by destruct on. Qed.

Lemma merge_left_ok :
  on ≠ [] →
  merge left right on suffixes HowLeft
  = Ok (Frame (merged_columns left right on suffixes)
          (left_join_rows left right on suffixes)).
Proof. unfold merge. by destruct on. Qed.
End merge_rows.


Lemma aggregate_perf_frame (df out : DataFrame) :
  aggregate_perf df = Ok out →
  present df key_candidates ≠ []
  ∧ columns out
    = present df key_candidates ++ (filter (λ cf, cf.1 ∈ columns df) perf_metrics).*1.
Proof.
  unfold aggregate_perf, groupby_agg.
  destruct (present df key_candidates) eqn:Hp; [done|]. by intros [= <-].
Qed.

Lemma aggregate_status_frame (df out : DataFrame) :
  aggregate_status df = Ok out →
  present df key_candidates ≠ []
  ∧ columns out
    = present df key_candidates ++ (filter (λ cf, cf.1 ∈ columns df) status_metrics).*1.
Proof.
  unfold aggregate_status, groupby_agg.
  destruct (present df key_candidates) eqn:Hp; [done|]. by intros [= <-].
Qed.

Lemma elem_of_filtered_names (df : DataFrame) (ms : list (string * reducer)) (c : string) :
  c ∈ (filter (λ cf, cf.1 ∈ columns df) ms).*1 → c ∈ ms.*1.
Proof.
  intros ([c' f] & -> & [_ Hin]%list_elem_of_filter)%list_elem_of_fmap.
  apply list_elem_of_fmap. by exists (c', f).
Qed.

(** A performance aggregate and a status aggregate share no column but
    candidate keys. *)
Lemma aggregates_share_keys_only (perf status perf_agg status_agg : DataFrame)
    (c : string) :
  aggregate_perf perf = Ok perf_agg → aggregate_status status = Ok status_agg →
  c ∈ columns perf_agg → c ∈ columns status_agg → c ∈ key_candidates.
Proof.
  intros [_ HP]%aggregate_perf_frame [_ HS]%aggregate_status_frame.
  rewrite HP, HS, !elem_of_app, !elem_of_present.
  intros [[_ ?]|Hp%elem_of_filtered_names]; [done|].
  intros [[_ ?]|Hs%elem_of_filtered_names]; [done|].
  exfalso. revert Hs. change (¬ c ∈ status_metrics.*1).
  apply (bool_decide_eq_false_1 (c ∈ status_metrics.*1)).
  change perf_metrics.*1
    with ["Answered"; "Outbound"; "Total ACW"; "Avg Handle"; "Total Handle"] in Hp.
  repeat (apply elem_of_cons in Hp as [->|Hp]; [by vm_compute|]).
  by apply elem_of_nil in Hp.
Qed.

Lemma elem_of_in_both (a b : DataFrame) (cs : list string) (c : string) :
  c ∈ in_both a b cs ↔ (c ∈ columns a ∧ c ∈ columns b) ∧ c ∈ cs.
Proof. unfold in_both. by rewrite list_elem_of_filter. Qed.

Lemma matches_of_nil (right : DataFrame) (on : list string) (l : row) :
  (∀ r, r ∈ rows right → row_key on r ≠ row_key on l) → matches_of right on l = [].
Proof. intros Hno. unfold matches_of. apply filter_none. intros r Hr. by apply Hno. Qed.



(* ================================================================ *)
(** ** The template writer *)
(* ================================================================ *)

Local Arguments seconds_to_excel_time : simpl never.
Local Arguments seconds_to_hhmmss_time : simpl never.
Local Arguments parse_interval_date : simpl never.
Local Arguments float_or_zero : simpl never.
Local Arguments float_or_none : simpl never.
Local Arguments avg_handle : simpl never.
Local Arguments py_int : simpl never.
Local Arguments row_get : simpl never.
Local Arguments set_value : simpl never.

Lemma seconds_to_excel_time_ok (v : pyval) :
  seconds_to_excel_time v = Ok (excel_time_of v).
Proof.
  unfold excel_time_of, seconds_to_excel_time, py_float.
  destruct v as [|[q|]|s|]; try done. by destruct (float_of_str s) as [[q|]|].
Qed.

Lemma seconds_to_hhmmss_time_ok (v : pyval) :
  seconds_to_hhmmss_time v = Ok (clock_of v).
Proof.
  destruct (seconds_to_hhmmss_time_total v) as (o & Ho & _).
  unfold clock_of. by rewrite Ho.
Qed.

Lemma py_int_ok (x : pyfloat) (z : Z) : py_int x = Ok z → int_of x = z.
Proof. unfold int_of. by intros ->. Qed.

(** [write_row] is [row_record] followed by the assignments of
    [row_writes]. *)
Lemma write_row_normal (cols : list string) (row_idx : nat) (r : row) (ws : sheet) :
  write_row cols row_idx r ws
  = (rec ← row_record cols r;
     Ok (set_all ws (keyed row_idx (row_writes rec row_idx)), rec)).
Proof.
  unfold write_row, row_record.
  destruct (match row_get cols r "Interval Start" PNone with
            | PStr _ => _ | _ => _ end) as [date_val|e]; [|done]. simpl.
  rewrite !seconds_to_excel_time_ok. simpl.
  destruct (float_or_zero (row_get cols r "Answered" PNone)) as [answered|]; [|done].
  simpl.
  destruct (float_or_zero (row_get cols r "Outbound" PNone)) as [outbound|]; [|done].
  simpl.
  destruct (float_or_zero (row_get cols r "Total Inbound Booking" _))
    as [booking|]; [|done]. simpl.
  destruct (float_or_zero (row_get cols r "Total ACW" PNone)) as [acw|]; [|done].
  simpl. rewrite !seconds_to_excel_time_ok. simpl.
  destruct (float_or_none (row_get cols r "Total Handle" PNone)) as [th|]; [|done].
  simpl.
  destruct (avg_handle th answered _) as [avg|]; [|done]. simpl.
  rewrite !seconds_to_hhmmss_time_ok. simpl.
  destruct (py_int answered) as [g|] eqn:Hg; [|done]. simpl.
  destruct (py_int outbound) as [i|] eqn:Hi; [|done]. simpl.
  destruct (py_int booking) as [j|] eqn:Hj; [|done]. simpl.
  unfold row_writes, set_all, keyed. simpl.
  rewrite (py_int_ok _ _ Hg), (py_int_ok _ _ Hi), (py_int_ok _ _ Hj).
  destruct (excel_time_of (row_get cols r "Logged In" PNone));
    destruct (excel_time_of (PFloat acw));
    destruct (clock_of (opt_float avg)); reflexivity.
Qed.


Lemma lookup_set_value (k k' : nat * nat) (v : option xlvalue) (ws : sheet) :
  set_value k v ws !! k'
  = if decide (k = k') then Some (XCell v (default 0%nat (style <$> ws !! k)))
    else ws !! k'.
Proof.
  unfold set_value. destruct (decide (k = k')) as [->|Hne].
  - by rewrite lookup_insert_eq.
  - by rewrite lookup_insert_ne.
Qed.

Lemma value_at_set_value (k k' : nat * nat) (v : option xlvalue) (ws : sheet) :
  value_at (set_value k v ws) k' = if decide (k = k') then v else value_at ws k'.
Proof. unfold value_at. rewrite lookup_set_value. by case_decide. Qed.

Lemma style_kept_refl (ws : sheet) : style_kept ws ws.
Proof. intros k x Hk. by rewrite Hk. Qed.

Lemma style_kept_trans (ws1 ws2 ws3 : sheet) :
  style_kept ws1 ws2 → style_kept ws2 ws3 → style_kept ws1 ws3.
Proof.
  intros H12 H23 k x Hk. specialize (H12 k x Hk).
  destruct (ws2 !! k) as [y|] eqn:Hy; [|done]. simpl in H12.
  rewrite (H23 k y Hy). congruence.
Qed.

Lemma style_kept_set_value (k : nat * nat) (v : option xlvalue) (ws : sheet) :
  style_kept ws (set_value k v ws).
Proof.
  intros k' x Hk'. rewrite lookup_set_value. case_decide as Heq; [|by rewrite Hk'].
  subst k'. by rewrite Hk'.
Qed.

Lemma set_all_app (ws : sheet) (a b : list ((nat * nat) * option xlvalue)) :
  set_all ws (a ++ b) = set_all (set_all ws a) b.
Proof. unfold set_all. by rewrite foldl_app. Qed.

Lemma last_set_snoc (kvs : list ((nat * nat) * option xlvalue))
    (kv : (nat * nat) * option xlvalue) (k : nat * nat) :
  last_set (kvs ++ [kv]) k = if decide (kv.1 = k) then Some kv.2 else last_set kvs k.
Proof. unfold last_set. by rewrite foldl_app. Qed.

Lemma last_set_app (a b : list ((nat * nat) * option xlvalue)) (k : nat * nat) :
  last_set (a ++ b) k
  = match last_set b k with
    | Some v => Some v
    | None => last_set a k
    end.
Proof.
  induction b as [|kv b IH] using rev_ind.
  - by rewrite app_nil_r.
  - rewrite app_assoc, !last_set_snoc. by case_decide.
Qed.

Lemma last_set_None (kvs : list ((nat * nat) * option xlvalue)) (k : nat * nat) :
  k ∉ kvs.*1 → last_set kvs k = None.
Proof.
  induction kvs as [|kv kvs IH] using rev_ind; [done|].
  rewrite fmap_app, not_elem_of_app. intros [Hk Hkv].
  rewrite last_set_snoc, decide_False; [by apply IH|].
  intros Heq. apply Hkv. rewrite <-Heq. by apply list_elem_of_singleton.
Qed.

(** What a sheet holds after a list of assignments. *)
Lemma value_at_set_all (ws : sheet) (kvs : list ((nat * nat) * option xlvalue))
    (k : nat * nat) :
  value_at (set_all ws kvs) k
  = match last_set kvs k with
    | Some v => v
    | None => value_at ws k
    end.
Proof.
  induction kvs as [|kv kvs IH] using rev_ind; [done|].
  rewrite set_all_app, last_set_snoc. unfold set_all at 1. simpl.
  rewrite value_at_set_value. case_decide; [done|]. apply IH.
Qed.

Lemma lookup_set_all_other (ws : sheet) (kvs : list ((nat * nat) * option xlvalue))
    (k : nat * nat) :
  k ∉ kvs.*1 → set_all ws kvs !! k = ws !! k.
Proof.
  induction kvs as [|kv kvs IH] using rev_ind; [done|].
  rewrite fmap_app, not_elem_of_app. intros [Hk Hkv].
  rewrite set_all_app. unfold set_all at 1. simpl.
  rewrite lookup_set_value, decide_False; [by apply IH|].
  intros Heq. apply Hkv. rewrite <-Heq. by apply list_elem_of_singleton.
Qed.

Lemma style_kept_set_all (ws : sheet) (kvs : list ((nat * nat) * option xlvalue)) :
  style_kept ws (set_all ws kvs).
Proof.
  induction kvs as [|kv kvs IH] using rev_ind; [apply style_kept_refl|].
  rewrite set_all_app. eapply style_kept_trans; [apply IH|].
  unfold set_all at 1. simpl. apply style_kept_set_value.
Qed.

(** The loops as lists of assignments. *)
Lemma foldl_bind {A B C} (f : A → C → A) (g : B → list C) (a : A) (l : list B) :
  foldl f a (l ≫= g) = foldl (λ a x, foldl f a (g x)) a l.
Proof.
  revert a. induction l as [|x l IH]; intros a; csimpl; [done|].
  by rewrite foldl_app, IH.
Qed.

Lemma clear_region_set_all (ws : sheet) :
  clear_region ws = set_all ws (clear_writes ws).
Proof.
  unfold clear_region, set_all, clear_writes. rewrite foldl_bind.
  reflexivity.
Qed.


Lemma write_rows_normal (cols : list string) (rs : list row) (row_idx : nat)
    (ws : sheet) :
  write_rows cols rs row_idx ws
  = (recs ← records_of cols rs; Ok (set_all ws (rows_writes row_idx recs), recs)).
Proof.
  revert row_idx ws. induction rs as [|r rs IH]; intros row_idx ws; [done|].
  cbn [write_rows records_of]. rewrite write_row_normal.
  destruct (row_record cols r) as [rec|e]; [|done]. simpl.
  rewrite IH. destruct (records_of cols rs) as [recs|e]; [|done]. simpl.
  by rewrite set_all_app.
Qed.

Lemma fill_template_normal (template : workbook) (df : DataFrame) :
  fill_template template df
  = match template !! "Sheet1" with
    | None => Raise (KeyError "Worksheet Sheet1 does not exist.")
    | Some ws =>
        recs ← records_of (columns df) (rows df);
        Ok (<["Sheet1" := set_all ws (clear_writes ws ++ rows_writes 3 recs)]> template,
            recs)
    end.
Proof.
  unfold fill_template. destruct (template !! "Sheet1") as [ws|]; [|done].
  rewrite write_rows_normal, clear_region_set_all.
  destruct (records_of _ _) as [recs|e]; [|done]. simpl. by rewrite set_all_app.
Qed.

Lemma records_of_Forall2 (cols : list string) (rs : list row) (recs : list csv_record) :
  records_of cols rs = Ok recs ↔ Forall2 (λ r rec, row_record cols r = Ok rec) rs recs.
Proof.
  revert recs. induction rs as [|r rs IH]; intros recs; simpl.
  - split; [intros [= <-]; constructor|by intros ->%Forall2_nil_inv_l].
  - split.
    + destruct (row_record cols r) as [rec|] eqn:Hr; [|done]. simpl.
      destruct (records_of cols rs) as [recs'|] eqn:Hrs; [|done]. simpl.
      intros [= <-]. constructor; [done|]. by apply IH.
    + intros (rec & recs' & Hr & Hrs & ->)%Forall2_cons_inv_l.
      apply IH in Hrs. by rewrite Hr, Hrs.
Qed.

(** Cells exist up to [max_row] only. *)
Lemma max_row_bound (ws : sheet) (r c : nat) (x : xcell) :
  ws !! (r, c) = Some x → (r ≤ max_row ws)%nat.
Proof.
  intros Hx%elem_of_map_to_list. unfold max_row.
  induction (map_to_list ws) as [|kv l IH]; [by apply elem_of_nil in Hx|].
  apply elem_of_cons in Hx as [<-|Hx]; csimpl; [lia|].
  specialize (IH Hx). lia.
Qed.

Lemma max_row_ge_1 (ws : sheet) : (1 ≤ max_row ws)%nat.
Proof.
  unfold max_row. induction (map_to_list ws) as [|kv l IH]; csimpl; lia.
Qed.

Lemma elem_of_grid (rs cs : list nat) (kv : (nat * nat) * option xlvalue) :
  kv ∈ (r ← rs; c ← cs; [((r, c), None)])
  ↔ kv.1.1 ∈ rs ∧ kv.1.2 ∈ cs ∧ kv.2 = None.
Proof.
  rewrite list_elem_of_bind. split.
  - intros (r & (c & ->%list_elem_of_singleton & Hc)%list_elem_of_bind & Hr). done.
  - destruct kv as [[r c] v]; simpl. intros (Hr & Hc & ->).
    exists r. split; [|done]. apply list_elem_of_bind. exists c.
    split; [by apply list_elem_of_singleton|done].
Qed.

Lemma elem_of_clear_writes (ws : sheet) (kv : (nat * nat) * option xlvalue) :
  kv ∈ clear_writes ws
  ↔ ((3 ≤ kv.1.1 ≤ max_row ws)%nat ∧ (1 ≤ kv.1.2 ≤ 14)%nat) ∧ kv.2 = None.
Proof.
  unfold clear_writes.
  rewrite (elem_of_grid (seq 3 (max_row ws - 2)) (seq 1 14)), !elem_of_seq.
  pose proof (max_row_ge_1 ws). split.
  - intros (Hr & Hc & Hv). split; [lia|done].
  - intros [[Hr Hc] Hv]. split; [lia|]. split; [lia|done].
Qed.

Lemma last_set_all_None (kvs : list ((nat * nat) * option xlvalue)) (k : nat * nat) :
  (∀ kv, kv ∈ kvs → kv.2 = None) → k ∈ kvs.*1 → last_set kvs k = Some None.
Proof.
  induction kvs as [|kv kvs IH] using rev_ind; [by intros _ ?%elem_of_nil|].
  intros Hall. rewrite fmap_app, elem_of_app, last_set_snoc.
  case_decide as Hk.
  - intros _. by rewrite (Hall kv) by (apply elem_of_app; right; by apply list_elem_of_singleton).
  - intros [Hin|Hin%list_elem_of_singleton]; [|done].
    apply IH; [|done]. intros kv' Hkv'. apply Hall, elem_of_app. by left.
Qed.

Lemma last_set_clear_writes (ws : sheet) (r c : nat) :
  last_set (clear_writes ws) (r, c)
  = if decide ((3 ≤ r ≤ max_row ws)%nat ∧ (1 ≤ c ≤ 14)%nat) then Some None else None.
Proof.
  case_decide as Hin.
  - apply last_set_all_None.
    + by intros kv [_ ?]%elem_of_clear_writes.
    + apply list_elem_of_fmap. exists ((r, c), None). split; [done|].
      by apply elem_of_clear_writes.
  - apply last_set_None. intros (kv & Hk & [Hkv _]%elem_of_clear_writes)%list_elem_of_fmap.
    apply Hin. destruct kv as [[r' c'] v]. by simplify_eq/=.
Qed.

Lemma last_set_keyed (row_idx : nat) (W : list (nat * option xlvalue)) (r c : nat) :
  last_set (keyed row_idx W) (r, c) = if decide (row_idx = r) then written W c else None.
Proof.
  induction W as [|cv W IH] using rev_ind; [by case_decide|].
  unfold keyed, written in *. rewrite fmap_app, foldl_app. simpl.
  rewrite last_set_snoc. simpl. rewrite IH.
  destruct (decide (row_idx = r)) as [->|Hne].
  - destruct (decide (cv.1 = c)) as [->|Hc].
    + by rewrite decide_True.
    + rewrite decide_False; [done|]. by intros [= ?].
  - rewrite decide_False; [done|]. by intros [= ?].
Qed.

Lemma last_set_rows_writes (row_idx : nat) (recs : list csv_record) (r c : nat) :
  last_set (rows_writes row_idx recs) (r, c)
  = if decide (row_idx ≤ r)%nat
    then match recs !! (r - row_idx)%nat with
         | Some rec => written (row_writes rec r) c
         | None => None
         end
    else None.
Proof.
  revert row_idx. induction recs as [|rec recs IH]; intros row_idx.
  - simpl. by case_decide.
  - cbn [rows_writes]. rewrite last_set_app, IH, last_set_keyed.
    destruct (decide (row_idx = r)) as [->|Hne].
    + rewrite decide_False by lia. rewrite decide_True by lia.
      replace (r - r)%nat with 0%nat by lia. simpl. by destruct (written _ _).
    + destruct (decide (S row_idx ≤ r)%nat) as [Hle|Hgt].
      * rewrite decide_True by lia.
        replace (r - row_idx)%nat with (S (r - S row_idx)) by lia. simpl.
        by destruct (recs !! _) as [rec'|]; [destruct (written _ _)|].
      * by rewrite decide_False by lia.
Qed.

Lemma written_expected (rec : csv_record) (row_idx c : nat) :
  default None (written (row_writes rec row_idx) c) = expected_cell rec row_idx c.
Proof.
  unfold written, row_writes, expected_cell.
  destruct (excel_time_of (rec_logged_in rec)),
           (excel_time_of (PFloat (rec_acw rec))),
           (clock_of (opt_float (rec_avg_handle rec)));
    do 15 (try destruct c as [|c]); reflexivity.
Qed.

Lemma written_columns (rec : csv_record) (row_idx c : nat) :
  ¬ (1 ≤ c ≤ 14)%nat → written (row_writes rec row_idx) c = None.
Proof.
  intros Hc. unfold written, row_writes.
  destruct (excel_time_of (rec_logged_in rec)),
           (excel_time_of (PFloat (rec_acw rec))),
           (clock_of (opt_float (rec_avg_handle rec)));
    do 15 (try destruct c as [|c]); try reflexivity; lia.
Qed.


Lemma last_set_is_Some (kvs : list ((nat * nat) * option xlvalue)) (k : nat * nat) :
  k ∈ kvs.*1 → last_set kvs k ≠ None.
Proof.
  induction kvs as [|kv kvs IH] using rev_ind; [by intros ?%elem_of_nil|].
  rewrite fmap_app, elem_of_app, last_set_snoc.
  case_decide as Hk; [done|].
  intros [Hin|Hin%list_elem_of_singleton]; [by apply IH|done].
Qed.

Lemma lookup_set_all_unset (ws : sheet) (kvs : list ((nat * nat) * option xlvalue))
    (k : nat * nat) :
  last_set kvs k = None → set_all ws kvs !! k = ws !! k.
Proof.
  intros Hnone. apply lookup_set_all_other. intros Hin.
  by apply last_set_is_Some in Hin.
Qed.

(** The fields of the record of a row. *)
Lemma row_record_inv (cols : list string) (r : row) (rec : csv_record) :
  row_record cols r = Ok rec →
  rec_agent_name rec = row_get cols r "Agent Name" (PStr "")
  ∧ rec_division_name rec = row_get cols r "Division Name" (PStr "")
  ∧ rec_log_in rec = row_get cols r "Log In" PNone
  ∧ rec_log_out rec = row_get cols r "Log Out" PNone
  ∧ rec_logged_in rec = row_get cols r "Logged In" PNone
  ∧ float_or_zero (row_get cols r "Answered" PNone) = Ok (rec_answered rec)
  ∧ rec_inq_amb rec = rec_answered rec
  ∧ float_or_zero (row_get cols r "Outbound" PNone) = Ok (rec_outbound rec)
  ∧ float_or_zero (row_get cols r "Total Inbound Booking" (PFloat (FNum (qz 0))))
    = Ok (rec_inbound_booking rec)
  ∧ float_or_zero (row_get cols r "Total ACW" PNone) = Ok (rec_acw rec)
  ∧ ∃ th, float_or_none (row_get cols r "Total Handle" PNone) = Ok th
          ∧ avg_handle th (rec_answered rec) (row_get cols r "Avg Handle" PNone)
            = Ok (rec_avg_handle rec).
Proof.
  unfold row_record.
  destruct (match row_get cols r "Interval Start" PNone with
            | PStr _ => _ | _ => _ end) as [date_val|e]; [|done]. simpl.
  rewrite !seconds_to_excel_time_ok. simpl.
  destruct (float_or_zero (row_get cols r "Answered" PNone)) as [answered|]; [|done].
  simpl.
  destruct (float_or_zero (row_get cols r "Outbound" PNone)) as [outbound|]; [|done].
  simpl.
  destruct (float_or_zero (row_get cols r "Total Inbound Booking" _))
    as [booking|]; [|done]. simpl.
  destruct (float_or_zero (row_get cols r "Total ACW" PNone)) as [acw|]; [|done].
  simpl. rewrite !seconds_to_excel_time_ok. simpl.
  destruct (float_or_none (row_get cols r "Total Handle" PNone)) as [th|]; [|done].
  simpl.
  destruct (avg_handle th answered _) as [avg|] eqn:Havg; [|done]. simpl.
  rewrite !seconds_to_hhmmss_time_ok. simpl.
  destruct (py_int answered) as [g|]; [|done]. simpl.
  destruct (py_int outbound) as [i|]; [|done]. simpl.
  destruct (py_int booking) as [j|]; [|done]. simpl.
  intros [= <-]. simpl. repeat (split; [done|]). by exists th.
Qed.

Lemma write_row_record (cols : list string) (row_idx : nat) (r : row)
    (ws ws' : sheet) (rec : csv_record) :
  write_row cols row_idx r ws = Ok (ws', rec) →
  row_record cols r = Ok rec
  ∧ ws' = set_all ws (keyed row_idx (row_writes rec row_idx)).
Proof.
  rewrite write_row_normal. destruct (row_record cols r) as [rec'|]; [|done].
  simpl. by intros [= <- <-].
Qed.

Lemma zero_seconds : (qz 0 / qz 86400)%Qc = qz 0.
Proof. apply Qc_is_canon. reflexivity. Qed.

Lemma float_or_zero_na (v : pyval) : pd_isna v = true → float_or_zero v = Ok (FNum (qz 0)).
Proof. unfold float_or_zero. by intros ->. Qed.

Lemma float_or_none_na (v : pyval) : pd_isna v = true → float_or_none v = Ok None.
Proof. unfold float_or_none. by intros ->. Qed.

Lemma excel_time_of_na (v : pyval) : pd_isna v = true → excel_time_of v = None.
Proof. unfold excel_time_of, seconds_to_excel_time. by destruct v as [|[q|]|s|]. Qed.


(** C3 (as amended). In the record of a row the average handle time is
    the total handle time over the answered count, whatever average the
    export reports, when the total handle time is there and not zero and
    the answered count is not zero; in every other case, a total handle
    time of zero among them, it is the average the export reports, or
    nothing when the export reports none.  A total of 600 over 10 answered
    calls gives 60 where the export reports 55. *)
Theorem avg_handle_recomputed (cols : list string) (row_idx : nat) (r : row)
    (ws ws' : sheet) (rec : csv_record) :
  write_row cols row_idx r ws = Ok (ws', rec) →
  (∀ t a, row_get cols r "Total Handle" PNone = PFloat (FNum t) →
          row_get cols r "Answered" PNone = PFloat (FNum a) →
          t ≠ qz 0 → a ≠ qz 0 →
          rec_avg_handle rec = Some (FNum (t / a)%Qc))
  ∧ ((row_get cols r "Total Handle" PNone = PFloat (FNum (qz 0))
      ∨ pd_isna (row_get cols r "Total Handle" PNone) = true
      ∨ row_get cols r "Answered" PNone = PFloat (FNum (qz 0))
      ∨ pd_isna (row_get cols r "Answered" PNone) = true) →
     float_or_none (row_get cols r "Avg Handle" PNone) = Ok (rec_avg_handle rec)
     ∧ (pd_isna (row_get cols r "Avg Handle" PNone) = true → rec_avg_handle rec = None)
     ∧ (∀ v, row_get cols r "Avg Handle" PNone = PFloat (FNum v) →
             rec_avg_handle rec = Some (FNum v)))
  ∧ avg_handle (Some (FNum (qz 600))) (FNum (qz 10)) (PFloat (FNum (qz 55)))
    = Ok (Some (FNum (qz 60))).
Proof.
  intros [Hrec _]%write_row_record.
  apply row_record_inv in Hrec
    as (_ & _ & _ & _ & _ & Hans & _ & _ & _ & _ & th & Hth & Havg).
  split; [|split].
  - intros t a Ht Ha Ht0 Ha0. rewrite Ht in Hth. rewrite Ha in Hans.
    unfold float_or_none, float_or_zero in *. simpl in *.
    injection Hth as <-. injection Hans as Hans. rewrite <-Hans in Havg.
    unfold avg_handle in Havg. simpl in Havg.
    rewrite !bool_decide_eq_true_2 in Havg by done. simpl in Havg.
    rewrite bool_decide_eq_false_2 in Havg by done. by injection Havg as <-.
  - intros Hcase.
    assert (float_or_none (row_get cols r "Avg Handle" PNone) = Ok (rec_avg_handle rec))
      as Hfall.
    { destruct Hcase as [Ht|[Ht|[Ha|Ha]]].
      - rewrite Ht in Hth. unfold float_or_none in Hth. simpl in Hth.
        injection Hth as <-. unfold avg_handle in Havg. by simpl in Havg.
      - rewrite (float_or_none_na _ Ht) in Hth. injection Hth as <-. done.
      - rewrite Ha in Hans. unfold float_or_zero in Hans. simpl in Hans.
        injection Hans as Hans. rewrite <-Hans in Havg.
        unfold avg_handle in Havg. destruct th as [th|]; [|done].
        unfold truthy at 2 in Havg.
        rewrite (bool_decide_eq_false_2 (qz 0 ≠ qz 0)) in Havg by (by intros ?).
        by rewrite andb_false_r in Havg.
      - rewrite (float_or_zero_na _ Ha) in Hans. injection Hans as Hans.
        rewrite <-Hans in Havg.
        unfold avg_handle in Havg. destruct th as [th|]; [|done].
        unfold truthy at 2 in Havg.
        rewrite (bool_decide_eq_false_2 (qz 0 ≠ qz 0)) in Havg by (by intros ?).
        by rewrite andb_false_r in Havg. }
    split; [done|]. split.
    + intros Hna. rewrite (float_or_none_na _ Hna) in Hfall. by injection Hfall.
    + intros v Hv. rewrite Hv in Hfall. unfold float_or_none in Hfall.
      simpl in Hfall. by injection Hfall.
  - unfold avg_handle. simpl. do 3 f_equal. apply Qc_is_canon. reflexivity.
Qed.


Section filled_sheet.
Context (ws : sheet) (recs : list csv_record).
Let ws' : sheet := set_all ws (clear_writes ws ++ rows_writes 3 recs).

Lemma last_set_rows_outside (r c : nat) :
  (r < 3 ∨ c < 1 ∨ 14 < c ∨ 3 + length recs ≤ r)%nat →
  last_set (rows_writes 3 recs) (r, c) = None.
Proof.
  intros Hout. rewrite last_set_rows_writes. case_decide as Hr; [|done].
  destruct (recs !! (r - 3)%nat) as [rec|] eqn:Hrec; [|done].
  apply lookup_lt_Some in Hrec. apply written_columns. lia.
Qed.

Lemma filled_outside (r c : nat) :
  (r < 3 ∨ c < 1 ∨ 14 < c ∨ Nat.max (max_row ws) (2 + length recs) < r)%nat →
  ws' !! (r, c) = ws !! (r, c).
Proof.
  intros Hout. apply lookup_set_all_unset.
  rewrite last_set_app, last_set_rows_outside by lia.
  rewrite last_set_clear_writes. rewrite decide_False; [done|]. lia.
Qed.

Lemma filled_record_row (i : nat) (rec : csv_record) (c : nat) :
  recs !! i = Some rec → (1 ≤ c ≤ 14)%nat →
  value_at ws' ((3 + i)%nat, c) = expected_cell rec (3 + i)%nat c.
Proof.
  intros Hrec Hc. unfold ws'. rewrite value_at_set_all, last_set_app.
  rewrite last_set_rows_writes, decide_True by lia.
  replace (3 + i - 3)%nat with i by lia. rewrite Hrec.
  rewrite <-written_expected.
  destruct (written (row_writes rec (3 + i)%nat) c) as [v|]; [done|].
  cbn [default]. rewrite last_set_clear_writes. case_decide as Hin; [done|].
  unfold value_at. destruct (ws !! ((3 + i)%nat, c)) as [x|] eqn:Hx; [|done].
  apply max_row_bound in Hx. lia.
Qed.

Lemma filled_cleared_row (r c : nat) :
  (3 + length recs ≤ r ≤ max_row ws)%nat → (1 ≤ c ≤ 14)%nat →
  value_at ws' (r, c) = None.
Proof.
  intros Hr Hc. unfold ws'. rewrite value_at_set_all, last_set_app.
  rewrite last_set_rows_outside by lia.
  by rewrite last_set_clear_writes, decide_True by lia.
Qed.
End filled_sheet.



(* ================================================================ *)
(** ** Booking enrichment *)
(* ================================================================ *)

Lemma filter_unique {A B} `{EqDecision B} (f : A → B) (l : list A) (v : B) :
  NoDup (f <$> l) → (length (filter (λ x, f x = v) l) ≤ 1)%nat.
Proof.
  induction l as [|x l IH]; csimpl; [lia|].
  intros [Hx Hnd]%NoDup_cons. rewrite filter_cons.
  destruct (decide (f x = v)) as [<-|]; [|by apply IH].
  rewrite filter_none; [simpl; lia|].
  intros y Hy Hfy. apply Hx. rewrite <-Hfy. apply list_elem_of_fmap. eauto.
Qed.

Lemma left_join_unique (left right : DataFrame) (on : list string)
    (suffixes : string * string) :
  NoDup (row_key on <$> rows right) →
  left_join_rows left right on suffixes
  = enrich_row left right on suffixes <$> rows left.
Proof.
  intros Hnd. unfold left_join_rows.
  induction (rows left) as [|l ls IH]; [done|].
  rewrite bind_cons, fmap_cons, IH. change (?x :: ?y) with ([x] ++ y). f_equal.
  unfold enrich_row.
  pose proof (filter_unique (row_key on) (rows right) (row_key on l) Hnd) as Hlen.
  unfold matches_of. destruct (filter _ (rows right)) as [|o [|o' ms]]; try done.
  simpl in Hlen. lia.
Qed.

Lemma filter_fmap_same {A} (P : A → Prop) `{!∀ x, Decision (P x)} (f : A → A)
    (l : list A) :
  (∀ x, x ∈ l → P (f x) ↔ P x) → filter P (f <$> l) = f <$> filter P l.
Proof.
  intros HP. rewrite filter_fmap_comm. f_equal. by apply filter_ext_in.
Qed.


Lemma row_record_enriched (cols cols' : list string) (l l' : row) (b : Qc) :
  (∀ c d, c ≠ "Total Inbound Booking" → row_get cols' l' c d = row_get cols l c d) →
  float_or_zero (row_get cols l "Total Inbound Booking" (PFloat (FNum (qz 0))))
  = Ok (FNum (qz 0)) →
  float_or_zero (row_get cols' l' "Total Inbound Booking" (PFloat (FNum (qz 0))))
  = Ok (FNum b) →
  row_record cols' l' = (λ rec, with_booking rec (FNum b)) <$> row_record cols l.
Proof.
  intros Hsame H0 Hb. unfold row_record.
  rewrite !(Hsame "Agent Name"), !(Hsame "Division Name"),
    !(Hsame "Interval Start"), !(Hsame "Logged In"), !(Hsame "Answered"),
    !(Hsame "Outbound"), !(Hsame "Total ACW"), !(Hsame "Total Handle"),
    !(Hsame "Avg Handle"), !(Hsame "Log In"), !(Hsame "Log Out") by done.
  rewrite H0, Hb.
  destruct (match row_get cols l "Interval Start" PNone with
            | PStr _ => _ | _ => _ end) as [date_val|e]; simpl; [|done].
  rewrite !seconds_to_excel_time_ok. simpl.
  destruct (float_or_zero (row_get cols l "Answered" PNone)) as [answered|]; [|done].
  simpl.
  destruct (float_or_zero (row_get cols l "Outbound" PNone)) as [outbound|]; [|done].
  simpl.
  destruct (float_or_zero (row_get cols l "Total ACW" PNone)) as [acw|]; [|done].
  simpl. rewrite !seconds_to_excel_time_ok. simpl.
  destruct (float_or_none (row_get cols l "Total Handle" PNone)) as [th|]; [|done].
  simpl.
  destruct (avg_handle th answered _) as [avg|]; [|done]. simpl.
  rewrite !seconds_to_hhmmss_time_ok. simpl.
  destruct (py_int answered) as [g|]; [|done]. simpl.
  destruct (py_int outbound) as [i|]; [|done]. simpl.
  unfold py_int. simpl. done.
Qed.

Lemma records_of_enriched (cols cols' : list string) (f : row → row)
    (g : csv_record → Qc) (rs : list row) :
  (∀ l, l ∈ rs →
     match row_record cols l with
     | Ok rec => row_record cols' (f l) = Ok (with_booking rec (FNum (g rec)))
     | Raise e => row_record cols' (f l) = Raise e
     end) →
  match records_of cols rs with
  | Ok recs =>
      records_of cols' (f <$> rs)
      = Ok ((λ rec, with_booking rec (FNum (g rec))) <$> recs)
  | Raise e => records_of cols' (f <$> rs) = Raise e
  end.
Proof.
  induction rs as [|l rs IH]; intros Hrow; [done|].
  cbn [records_of fmap list_fmap].
  pose proof (Hrow l (proj2 (elem_of_cons _ _ _) (or_introl eq_refl))) as Hl.
  destruct (row_record cols l) as [rec|e]; rewrite Hl; [|done].
  cbn [mbind result_bind].
  specialize (IH (λ l' Hl', Hrow l' (proj2 (elem_of_cons _ _ _) (or_intror Hl')))).
  destruct (records_of cols rs) as [recs|e]; rewrite IH; done.
Qed.

Lemma records_no_booking (cols : list string) (rs : list row) (recs : list csv_record) :
  "Total Inbound Booking" ∉ cols → records_of cols rs = Ok recs →
  Forall (λ rec, rec_inbound_booking rec = FNum (qz 0)) recs.
Proof.
  intros Hno. revert recs. induction rs as [|l rs IH]; intros recs.
  - intros [= <-]. constructor.
  - cbn [records_of]. destruct (row_record cols l) as [rec|] eqn:Hrec; [|done].
    cbn [mbind result_bind].
    destruct (records_of cols rs) as [recs'|]; [|done]. cbn [mbind result_bind].
    intros [= <-]. constructor; [|by apply IH].
    apply row_record_inv in Hrec as (_ & _ & _ & _ & _ & _ & _ & _ & Hb & _).
    unfold row_get in Hb. rewrite bool_decide_eq_false_2 in Hb by done.
    unfold float_or_zero in Hb. simpl in Hb. by injection Hb.
Qed.

Section enrich_facts.
Context (merged bk bagg : DataFrame) (name_col count_col : string).
Hypothesis Hspec : booking_aggregate_of bk name_col count_col bagg.
Hypothesis Hno : "Total Inbound Booking" ∉ columns merged.
Hypothesis Hname : "Agent Name" ∈ columns merged.

Let enriched (l : row) : row := enrich_row merged bagg ["Agent Name"] ("_x", "_y") l.

Lemma booking_shared (c : string) :
  c ∈ columns merged → c ∈ columns bagg → c ∈ ["Agent Name"].
Proof.
  destruct Hspec as (Hcols & _). rewrite Hcols. intros Hm Hc.
  apply elem_of_cons in Hc as [->|Hc]; [by apply elem_of_cons; left|].
  apply list_elem_of_singleton in Hc as ->. done.
Qed.

Lemma booking_key_left (c : string) : c ∈ ["Agent Name"] → c ∈ columns merged.
Proof. by intros ->%list_elem_of_singleton. Qed.

Lemma booking_key_right (c : string) : c ∈ ["Agent Name"] → c ∈ columns bagg.
Proof.
  destruct Hspec as (-> & _). intros ->%list_elem_of_singleton.
  by apply elem_of_cons; left.
Qed.

Local Ltac booking_side :=
  first [done | apply booking_shared | apply booking_key_left | apply booking_key_right].

Lemma enrich_merge_ok :
  merge merged bagg ["Agent Name"] ("_x", "_y") HowLeft
  = Ok (Frame (columns merged ++ ["Total Inbound Booking"]) (enriched <$> rows merged)).
Proof.
  rewrite merge_left_ok by booking_side. f_equal. f_equal.
  - rewrite merged_columns_plain by booking_side. f_equal.
    destruct Hspec as (-> & _). reflexivity.
  - apply left_join_unique. destruct Hspec as (_ & Hnd & _).
    change (row_key ["Agent Name"])
      with ((λ c, [c]) ∘ (λ o : row, cell_at o "Agent Name")).
    rewrite list_fmap_compose. apply NoDup_fmap_2; [|done]. by intros ?? [= ?].
Qed.

Lemma enrich_row_same (l : row) (c : string) :
  c ∈ columns merged → cell_at (enriched l) c = cell_at l c.
Proof.
  intros Hc. unfold enriched, enrich_row.
  destruct (matches_of bagg ["Agent Name"] l).
  - apply left_only_left; booking_side.
  - apply joined_left; booking_side.
Qed.

Lemma enrich_row_booking (l : row) :
  float_or_zero (py_of_cell (cell_at (enriched l) "Total Inbound Booking"))
  = Ok (FNum (agent_booking bk name_col count_col (py_of_cell (cell_at l "Agent Name")))).
Proof.
  destruct Hspec as (Hcols & Hnd & Hrows & Hall).
  assert ("Total Inbound Booking" ∈ columns bagg) as Htib.
  { rewrite Hcols. apply elem_of_cons; right. by apply elem_of_cons; left. }
  unfold enriched, enrich_row.
  destruct (matches_of bagg ["Agent Name"] l) as [|o ms] eqn:Hm.
  - rewrite left_only_right_null;
      [|booking_side..|by intros ?%list_elem_of_singleton].
    unfold float_or_zero. simpl. do 2 f_equal. symmetry.
    destruct (cell_at l "Agent Name") as [|q|n] eqn:Hl; simpl; try done.
    unfold booked_for. rewrite filter_none; [done|]. intros r Hr Hn.
    destruct (Hall r Hr) as (o & Ho & Hoan).
    assert (o ∈ matches_of bagg ["Agent Name"] l) as Hin.
    { apply list_elem_of_filter. split; [|done].
      unfold row_key; simpl. by rewrite Hoan, Hn, Hl. }
    rewrite Hm in Hin. by apply elem_of_nil in Hin.
  - assert (o ∈ matches_of bagg ["Agent Name"] l) as [Hk Ho]%list_elem_of_filter.
    { rewrite Hm. by apply elem_of_cons; left. }
    rewrite joined_right by booking_side.
    destruct (Hrows o Ho) as (r & Hr & Hoan & Hotib). rewrite Hotib.
    unfold row_key in Hk; simpl in Hk. injection Hk as Hk.
    rewrite <-Hk, Hoan. simpl. unfold float_or_zero. done.
Qed.

Lemma enriched_row_get (l : row) (c : string) (d : pyval) :
  c ≠ "Total Inbound Booking" →
  row_get (columns merged ++ ["Total Inbound Booking"]) (enriched l) c d
  = row_get (columns merged) l c d.
Proof.
  intros Hc. unfold row_get.
  destruct (decide (c ∈ columns merged)) as [Hin|Hnin].
  - rewrite !bool_decide_eq_true_2; [|done|by apply elem_of_app; left].
    by rewrite enrich_row_same.
  - rewrite !bool_decide_eq_false_2; [done|done|].
    intros [?|?%list_elem_of_singleton]%elem_of_app; done.
Qed.

Lemma enriched_row_record (l : row) :
  match row_record (columns merged) l with
  | Ok rec =>
      row_record (columns merged ++ ["Total Inbound Booking"]) (enriched l)
      = Ok (with_booking rec
              (FNum (agent_booking bk name_col count_col (rec_agent_name rec))))
  | Raise e =>
      row_record (columns merged ++ ["Total Inbound Booking"]) (enriched l) = Raise e
  end.
Proof.
  rewrite (row_record_enriched (columns merged) _ l (enriched l)
             (agent_booking bk name_col count_col (py_of_cell (cell_at l "Agent Name")))).
  - destruct (row_record (columns merged) l) as [rec|e] eqn:Hrec; [|done]. simpl.
    apply row_record_inv in Hrec as (Han & _). rewrite Han. unfold row_get.
    by rewrite bool_decide_eq_true_2.
  - intros c d Hc. by apply enriched_row_get.
  - unfold row_get. by rewrite bool_decide_eq_false_2.
  - unfold row_get. rewrite bool_decide_eq_true_2.
    + apply enrich_row_booking.
    + apply elem_of_app; right. by apply list_elem_of_singleton.
Qed.

Lemma drop_unnamed_enriched :
  drop_unnamed (Frame (columns merged ++ ["Total Inbound Booking"])
                  (enriched <$> rows merged))
  = Frame (columns merged ++ ["Total Inbound Booking"])
      (enriched <$> rows (drop_unnamed merged)).
Proof.
  unfold drop_unnamed, filter_notna. cbn [columns rows].
  rewrite !bool_decide_eq_true_2; [|done|by apply elem_of_app; left].
  cbn [rows]. f_equal. apply filter_fmap_same.
  intros l _. by rewrite enrich_row_same.
Qed.

Lemma enriched_records :
  match records_of (columns merged) (rows (drop_unnamed merged)) with
  | Ok recs =>
      records_of (columns merged ++ ["Total Inbound Booking"])
        (enriched <$> rows (drop_unnamed merged))
      = Ok ((λ rec, with_booking rec
               (FNum (agent_booking bk name_col count_col (rec_agent_name rec))))
              <$> recs)
  | Raise e =>
      records_of (columns merged ++ ["Total Inbound Booking"])
        (enriched <$> rows (drop_unnamed merged)) = Raise e
  end.
Proof.
  apply (records_of_enriched (columns merged) _ enriched
           (λ rec, agent_booking bk name_col count_col (rec_agent_name rec))).
  intros l _. apply enriched_row_record.
Qed.
End enrich_facts.


(** When the merge of two aggregates succeeds, it is on the candidate
    columns both hold, and no column needs a suffix. *)
Lemma merge_perf_status_columns (perf status P S merged : DataFrame) :
  aggregate_perf perf = Ok P → aggregate_status status = Ok S →
  merge_perf_status P S = Ok merged →
  columns merged
  = columns P ++ filter (λ c, c ∉ in_both P S key_candidates) (columns S).
Proof.
  intros HP HS. unfold merge_perf_status.
  assert (join_cols P S = in_both P S key_candidates) as ->.
  { unfold join_cols. destruct (in_both P S key_candidates) eqn:Hin; [|done].
    apply filter_none. intros c Hc Hboth.
    assert (c ∈ in_both P S key_candidates) as Hcin.
    { apply elem_of_in_both. split; [done|].
      apply elem_of_cons in Hc as [->|Hc]; [compute_done|].
      apply list_elem_of_singleton in Hc as ->. compute_done. }
    rewrite Hin in Hcin. by apply elem_of_nil in Hcin. }
  destruct (decide (in_both P S key_candidates = [])) as [Hnil|Hne].
  { rewrite Hnil. done. }
  rewrite merge_outer_ok; [|..|done].
  - intros [= <-]. cbn [columns]. apply merged_columns_plain.
    intros c Hl Hr. apply elem_of_in_both. split; [done|].
    by eapply aggregates_share_keys_only.
  - intros c Hl Hr. apply elem_of_in_both. split; [done|].
    by eapply aggregates_share_keys_only.
  - by intros c [[? _] _]%elem_of_in_both.
  - by intros c [[_ ?] _]%elem_of_in_both.
Qed.

Lemma merged_has_no_booking (perf status P S merged : DataFrame) :
  aggregate_perf perf = Ok P → aggregate_status status = Ok S →
  merge_perf_status P S = Ok merged →
  "Total Inbound Booking" ∉ columns merged.
Proof.
  intros HP HS Hm. rewrite (merge_perf_status_columns _ _ _ _ _ HP HS Hm).
  apply aggregate_perf_frame in HP as [_ ->].
  apply aggregate_status_frame in HS as [_ HS].
  rewrite !elem_of_app, list_elem_of_filter, HS, elem_of_app, !elem_of_present.
  intros [[[_ Hk]|Hk%elem_of_filtered_names]|[_ [[_ Hk]|Hk%elem_of_filtered_names]]];
    revert Hk; compute_done.
Qed.

Lemma merged_agent_name (perf status P S merged : DataFrame) :
  aggregate_perf perf = Ok P → aggregate_status status = Ok S →
  merge_perf_status P S = Ok merged →
  "Agent Name" ∈ columns merged
  ↔ "Agent Name" ∈ columns perf ∨ "Agent Name" ∈ columns status.
Proof.
  intros HP HS Hm. rewrite (merge_perf_status_columns _ _ _ _ _ HP HS Hm).
  rewrite elem_of_app, list_elem_of_filter, elem_of_in_both.
  apply aggregate_perf_frame in HP as [_ ->].
  apply aggregate_status_frame in HS as [_ ->].
  rewrite !elem_of_app, !elem_of_present.
  assert ("Agent Name" ∈ key_candidates) as Hk by compute_done.
  assert (∀ df, "Agent Name" ∉ (filter (λ cf, cf.1 ∈ columns df) perf_metrics).*1) as Hp.
  { intros df Hin%elem_of_filtered_names. revert Hin. compute_done. }
  assert (∀ df, "Agent Name" ∉ (filter (λ cf, cf.1 ∈ columns df) status_metrics).*1) as Hs.
  { intros df Hin%elem_of_filtered_names. revert Hin. compute_done. }
  specialize (Hp perf). specialize (Hs status).
  destruct (decide ("Agent Name" ∈ columns perf)); tauto.
Qed.

Lemma columns_load_perf (csv : DataFrame) : columns (load_perf csv) = columns csv.
Proof. unfold load_perf. by case_bool_decide. Qed.

Lemma columns_drop_unnamed (df : DataFrame) : columns (drop_unnamed df) = columns df.
Proof. unfold drop_unnamed. by case_bool_decide. Qed.

Lemma with_booking_same (rec : csv_record) :
  with_booking rec (rec_inbound_booking rec) = rec.
Proof. by destruct rec. Qed.

Lemma booked_for_unmatched (bk : DataFrame) (name_col count_col n : string) :
  (∀ r, r ∈ rows bk → astype_str (cell_at r name_col) ≠ n) →
  booked_for bk name_col count_col n = qz 0.
Proof. intros Hno. unfold booked_for. by rewrite filter_none. Qed.

(** The booking step followed by the writer, set against the writer
    alone. *)
Lemma enrich_then_fill (perf status P S merged : DataFrame) (template : workbook)
    (bk : DataFrame) (name_col count_col : string) :
  aggregate_perf perf = Ok P → aggregate_status status = Ok S →
  merge_perf_status P S = Ok merged →
  head (filter is_name_col (columns bk)) = Some name_col →
  head (filter is_count_col (columns bk)) = Some count_col →
  match fill_template template (drop_unnamed merged) with
  | Ok (wb0, recs0) =>
      Forall (λ rec, rec_inbound_booking rec = FNum (qz 0)) recs0
      ∧ ∃ wb1,
          (enrich merged (Some bk) ≫= λ m, fill_template template (drop_unnamed m))
          = Ok (wb1,
                (λ rec,
                   with_booking rec
                     (FNum (if bool_decide ("Agent Name" ∈ columns merged)
                            then agent_booking bk name_col count_col
                                   (rec_agent_name rec)
                            else qz 0))) <$> recs0)
  | Raise e =>
      (enrich merged (Some bk) ≫= λ m, fill_template template (drop_unnamed m))
      = Raise e
  end.
Proof.
  intros HP HS Hm Hn Hc.
  pose proof (merged_has_no_booking _ _ _ _ _ HP HS Hm) as Hno.
  destruct (aggregate_booking_spec bk name_col count_col Hn Hc) as (bagg & Hbagg & Hspec).
  unfold enrich, load_booking. rewrite Hbagg. cbn [mbind result_bind].
  rewrite !fill_template_normal.
  destruct (decide ("Agent Name" ∈ columns merged)) as [Hname|Hname].
  - rewrite !bool_decide_eq_true_2;
      [|by eapply booking_key_right; [|apply list_elem_of_singleton]|done].
    cbn [andb].
    rewrite (enrich_merge_ok merged bk bagg name_col count_col Hspec Hno Hname).
    cbn [mbind result_bind].
    rewrite (drop_unnamed_enriched merged bk bagg name_col count_col Hspec Hno Hname).
    rewrite fill_template_normal. cbn [columns rows].
    destruct (template !! "Sheet1") as [ws|]; [|done].
    pose proof (enriched_records merged bk bagg name_col count_col Hspec Hno Hname)
      as Hrecs.
    rewrite columns_drop_unnamed.
    destruct (records_of (columns merged) (rows (drop_unnamed merged)))
      as [recs0|e] eqn:Hrecs0; rewrite Hrecs; [|done].
    cbn [mbind result_bind]. split; [by eapply records_no_booking|]. eauto.
  - rewrite !(bool_decide_eq_false_2 ("Agent Name" ∈ columns merged)) by done.
    cbn [andb mbind result_bind]. rewrite !fill_template_normal.
    destruct (template !! "Sheet1") as [ws|]; [|done].
    rewrite columns_drop_unnamed.
    destruct (records_of (columns merged) (rows (drop_unnamed merged)))
      as [recs0|e] eqn:Hrecs0; [|done].
    cbn [mbind result_bind].
    pose proof (records_no_booking _ _ _ Hno Hrecs0) as Hzero.
    split; [done|]. eexists. do 2 f_equal.
    rewrite <-(list_fmap_id recs0) at 1. apply Forall_fmap_ext_1.
    eapply Forall_impl; [apply Hzero|]. intros rec <-. cbn [id].
    by rewrite with_booking_same.
Qed.


Lemma aggregate_booking_heads (df out : DataFrame) :
  aggregate_booking df = Ok out →
  ∃ name_col count_col,
    head (filter is_name_col (columns df)) = Some name_col
    ∧ head (filter is_count_col (columns df)) = Some count_col.
Proof.
  unfold aggregate_booking.
  destruct (head (filter is_name_col (columns df))) as [name_col|]; [|done].
  destruct (head (filter is_count_col (columns df))) as [count_col|]; [|done].
  eauto.
Qed.

(** The records of a frame after the filter on the agent name all carry a
    name. *)
Lemma named_records (df : DataFrame) (recs : list csv_record) :
  records_of (columns df) (rows (drop_unnamed df)) = Ok recs →
  Forall2 (λ l rec, rec_agent_name rec = row_get (columns df) l "Agent Name" (PStr "")
                    ∧ pd_isna (rec_agent_name rec) = false)
          (rows (drop_unnamed df)) recs.
Proof.
  intros Hrecs%records_of_Forall2.
  assert (Forall (λ l, "Agent Name" ∈ columns df → cell_at l "Agent Name" ≠ Null)
            (rows (drop_unnamed df))) as Hnamed.
  { apply Forall_forall. intros l Hl Hin. unfold drop_unnamed in Hl.
    rewrite bool_decide_eq_true_2 in Hl by done.
    by apply list_elem_of_filter in Hl as [? _]. }
  induction Hrecs as [|l rec ls recs Hrec _ IH]; [constructor|].
  apply Forall_cons in Hnamed as [Hl Hls]. constructor; [|by apply IH].
  apply row_record_inv in Hrec as (Han & _). split; [done|]. rewrite Han.
  unfold row_get. case_bool_decide as Hin; [|done].
  specialize (Hl Hin). by destruct (cell_at l "Agent Name").
Qed.

(** What a run that succeeds went through. *)
Lemma run_from_paths_stages (perf status : DataFrame) (template : workbook)
    (booking : option DataFrame) (wb' : workbook) (recs : list csv_record) :
  run_from_paths perf status template booking = Ok (wb', recs) →
  ∃ P S merged ws recs0,
    aggregate_perf (load_perf perf) = Ok P
    ∧ aggregate_status (load_status status) = Ok S
    ∧ merge_perf_status P S = Ok merged
    ∧ template !! "Sheet1" = Some ws
    ∧ records_of (columns merged) (rows (drop_unnamed merged)) = Ok recs0
    ∧ Forall2 (λ rec0 rec, ∃ b, rec = with_booking rec0 b) recs0 recs
    ∧ wb' = <["Sheet1" := set_all ws (clear_writes ws ++ rows_writes 3 recs)]> template.
Proof.
  unfold run_from_paths.
  destruct (aggregate_perf (load_perf perf)) as [P|e] eqn:HP; [|done].
  cbn [mbind result_bind].
  destruct (aggregate_status (load_status status)) as [S|e] eqn:HS; [|done].
  cbn [mbind result_bind].
  destruct (merge_perf_status P S) as [merged|e] eqn:Hm; [|done].
  cbn [mbind result_bind]. intros Hrun.
  exists P, S, merged.
  assert (∃ recs0 wb0,
            fill_template template (drop_unnamed merged) = Ok (wb0, recs0)
            ∧ Forall2 (λ rec0 rec, ∃ b, rec = with_booking rec0 b) recs0 recs)
    as (recs0 & wb0 & Hfill0 & Hrel).
  { destruct booking as [bk|].
    - destruct (aggregate_booking bk) as [bagg|e] eqn:Hbagg.
      2:{ unfold enrich, load_booking in Hrun. by rewrite Hbagg in Hrun. }
      destruct (aggregate_booking_heads _ _ Hbagg) as (name_col & count_col & Hn & Hc).
      pose proof (enrich_then_fill _ _ _ _ _ template bk _ _ HP HS Hm Hn Hc) as Hboth.
      destruct (fill_template template (drop_unnamed merged)) as [[wb0 recs0]|e].
      + destruct Hboth as (_ & wb1 & Hwith). rewrite Hwith in Hrun.
        injection Hrun as <- <-. exists recs0, wb0. split; [done|].
        apply Forall2_fmap_r, Forall_Forall2_diag, Forall_forall. eauto.
      + by rewrite Hboth in Hrun.
    - unfold enrich in Hrun. cbn [mbind result_bind] in Hrun.
      exists recs, wb'. split; [done|].
      apply Forall_Forall2_diag, Forall_forall. intros rec _.
      exists (rec_inbound_booking rec). by rewrite with_booking_same. }
  assert (∃ final, fill_template template final = Ok (wb', recs)) as [final Hfill].
  { destruct (enrich merged booking) as [m|e]; [|done]. eauto. }
  rewrite fill_template_normal in Hfill0, Hfill.
  destruct (template !! "Sheet1") as [ws|]; [|done].
  rewrite columns_drop_unnamed in Hfill0.
  destruct (records_of (columns merged) (rows (drop_unnamed merged)))
    as [recs0'|] eqn:Hrecs0; [|done].
  cbn [mbind result_bind] in Hfill0. injection Hfill0 as _ <-.
  destruct (records_of (columns final) (rows final)) as [recs'|]; [|done].
  cbn [mbind result_bind] in Hfill. injection Hfill as <- <-.
  exists ws, recs0'. done.
Qed.



(* ================================================================ *)
(** ** Further properties of the time codec and the loaders *)
(* ================================================================ *)

(** X1. [seconds_to_excel_time] never raises; it gives the fraction of a day
    [s / 86400] for a finite number of seconds [s] and [None] for [None],
    NaN, an object that is no number and text that is no number; whatever
    it returns, times 86400, is the number of seconds it was given.
    Twelve hours are half a day. *)
Theorem seconds_to_excel_time_day_fraction :
  (∀ q, seconds_to_excel_time (PFloat (FNum q)) = Ok (Some (FNum (q / qz 86400)%Qc)))
  ∧ (∀ v, non_numeric v → seconds_to_excel_time v = Ok None)
  ∧ (∀ v, ∃ r, seconds_to_excel_time v = Ok r)
  ∧ (∀ v x, seconds_to_excel_time v = Ok (Some x) →
       ∃ q, x = FNum q ∧ py_float v = Ok (FNum (q * qz 86400)%Qc))
  ∧ seconds_to_excel_time (PFloat (FNum (qz 43200))) = Ok (Some (FNum (qz 1 / qz 2)%Qc)).
Proof.
  assert (∀ q : Qc, (q / qz 86400 * qz 86400)%Qc = q) as Hback.
  { intros q. rewrite Qcmult_comm. apply Qcmult_div_r. by intros Hq; vm_compute in Hq. }
  split; [done|]. split; [|split; [|split]].
  - intros [|[q|]|s|]; simpl; try done.
    intros Hs. unfold seconds_to_excel_time, py_float. by rewrite Hs.
  - intros v. rewrite seconds_to_excel_time_ok. eauto.
  - intros v x. unfold seconds_to_excel_time, py_float.
    destruct v as [|[q|]|s|]; try done.
    + intros [= <-]. eexists. split; [done|]. by rewrite Hback.
    + destruct (float_of_str s) as [[q|]|]; try done.
      intros [= <-]. eexists. split; [done|]. by rewrite Hback.
  - unfold seconds_to_excel_time. simpl. do 3 f_equal. apply Qc_is_canon. reflexivity.
Qed.

(** X2. For a number of seconds that rounds into the day, the clock time
    that [seconds_to_hhmmss_time] returns spells exactly the rounded
    number: hours, minutes and seconds add up to it. *)
Theorem seconds_to_hhmmss_time_exact (q : Qc) :
  0 <= round_half_even q <= 86399 →
  ∃ t, seconds_to_hhmmss_time (PFloat (FNum q)) = Ok (Some t)
       ∧ hour t * 3600 + minute t * 60 + second t = round_half_even q.
Proof.
  intros Hs. rewrite seconds_to_hhmmss_time_finite. eexists. split; [done|].
  unfold clamped_clock. set (s := round_half_even q) in *.
  destruct (Z.ltb_spec s 0); [lia|]. destruct (Z.ltb_spec 86399 s); [lia|]. simpl.
  Z.to_euclidean_division_equations. lia.
Qed.

(** X3. [load_perf] keeps the columns.  When the export has a media type
    column it keeps exactly the rows whose media type is the text [voice],
    in their order; a row whose media type is missing goes.  Without the
    column it keeps the export as it is.  Loading what was loaded changes
    nothing, so a run on the loaded export is the run on the export. *)
Theorem load_perf_voice_only (csv : DataFrame) :
  columns (load_perf csv) = columns csv
  ∧ sublist (rows (load_perf csv)) (rows csv)
  ∧ (∀ r, r ∈ rows (load_perf csv)
          ↔ r ∈ rows csv
            ∧ ("Media Type" ∈ columns csv → cell_at r "Media Type" = Str "voice"))
  ∧ (∀ r, "Media Type" ∈ columns csv → cell_at r "Media Type" = Null →
          r ∉ rows (load_perf csv))
  ∧ ("Media Type" ∉ columns csv → load_perf csv = csv)
  ∧ load_perf (load_perf csv) = load_perf csv
  ∧ (∀ status template booking,
       run_from_paths (load_perf csv) status template booking
       = run_from_paths csv status template booking).
Proof.
  assert (load_perf (load_perf csv) = load_perf csv) as Hidem.
  { destruct (decide ("Media Type" ∈ columns csv)) as [Hm|Hm]; unfold load_perf.
    - rewrite (bool_decide_eq_true_2 _ Hm). cbn [columns rows].
      rewrite (bool_decide_eq_true_2 _ Hm). f_equal.
      apply filter_all. by intros r [? _]%list_elem_of_filter.
    - by rewrite !(bool_decide_eq_false_2 _ Hm). }
  split; [apply columns_load_perf|]. split; [|split; [|split; [|split; [|split]]]].
  - unfold load_perf. case_bool_decide; [apply sublist_filter|done].
  - intros r. unfold load_perf. case_bool_decide as Hm; cbn [rows].
    + rewrite list_elem_of_filter. split; [by intros [? ?]|intros [? Hv]; auto].
    + split; [by intros ?|by intros [? _]].
  - intros r Hm Hnull. unfold load_perf. rewrite bool_decide_eq_true_2 by done.
    cbn [rows]. rewrite list_elem_of_filter. intros [Hv _]. congruence.
  - intros Hm. unfold load_perf. by rewrite bool_decide_eq_false_2.
  - done.
  - intros status template booking. unfold run_from_paths. by rewrite Hidem.
Qed.

(** X4. An aggregator has nothing to group by when the table holds none of
    the candidate key columns: on such a table with at least one row it
    raises, and the metric columns play no part in that. *)
Theorem aggregates_need_a_key_column (df : DataFrame) :
  (∀ c, c ∈ key_candidates → c ∉ columns df) → rows df ≠ [] →
  aggregate_perf df = Raise (ValueError "No group keys passed!")
  ∧ aggregate_status df = Raise (ValueError "No group keys passed!").
Proof.
  intros Hno _.
  assert (present df key_candidates = []) as Hp.
  { apply filter_none. intros c Hc Hin. by apply (Hno c). }
  unfold aggregate_perf, aggregate_status, groupby_agg. by rewrite Hp.
Qed.

Lemma key_is_no_metric (c : string) :
  c ∈ key_candidates → ¬ (c ∈ perf_metrics.*1) ∧ ¬ (c ∈ status_metrics.*1).
Proof. revert c. apply Forall_forall. compute_done. Qed.

(** X5. The two exports need a candidate key column in common: when no
    candidate column is in both, there is no column to join on, the
    fall-back finds none either, and the run fails whatever the template
    and the booking table are. *)
Theorem run_needs_a_shared_key_column (perf status : DataFrame)
    (template : workbook) (booking : option DataFrame) :
  (∀ c, c ∈ key_candidates → ¬ (c ∈ columns perf ∧ c ∈ columns status)) →
  is_ok (run_from_paths perf status template booking) = false
  ∧ ∀ P S, aggregate_perf (load_perf perf) = Ok P → aggregate_status status = Ok S →
           join_cols P S = [] ∧ is_ok (merge_perf_status P S) = false.
Proof.
  intros Hno.
  assert (∀ P S, aggregate_perf (load_perf perf) = Ok P →
                 aggregate_status status = Ok S →
                 join_cols P S = [] ∧ is_ok (merge_perf_status P S) = false) as Hmerge.
  { intros P S HP HS.
    assert (in_both P S key_candidates = []) as Hnone.
    { apply filter_none. intros c Hc [HcP HcS]. apply (Hno c Hc).
      destruct (aggregate_perf_frame _ _ HP) as [_ HPc].
      destruct (aggregate_status_frame _ _ HS) as [_ HSc].
      rewrite HPc in HcP. rewrite HSc in HcS.
      destruct (key_is_no_metric c Hc) as [HnP HnS].
      apply elem_of_app in HcP as [[HcP _]%elem_of_present|HcP%elem_of_filtered_names];
        [|by destruct HnP].
      apply elem_of_app in HcS as [[HcS _]%elem_of_present|HcS%elem_of_filtered_names];
        [|by destruct HnS].
      rewrite columns_load_perf in HcP. by split. }
    assert (join_cols P S = []) as Hj.
    { unfold join_cols. rewrite Hnone. apply filter_none. intros c Hc Hboth.
      assert (c ∈ in_both P S key_candidates) as Hcin.
      { apply elem_of_in_both. split; [done|].
        apply elem_of_cons in Hc as [->|Hc]; [compute_done|].
        apply list_elem_of_singleton in Hc as ->. compute_done. }
      rewrite Hnone in Hcin. by apply elem_of_nil in Hcin. }
    split; [done|]. unfold merge_perf_status. by rewrite Hj. }
  split; [|done]. unfold run_from_paths.
  destruct (aggregate_perf (load_perf perf)) as [P|e] eqn:HP; [|done].
  cbn [mbind result_bind]. unfold load_status.
  destruct (aggregate_status status) as [S|e] eqn:HS; [|done].
  cbn [mbind result_bind]. destruct (Hmerge P S eq_refl eq_refl) as [_ Hm].
  by destruct (merge_perf_status P S).
Qed.


(* ================================================================ *)
(** ** What the aggregates hold *)
(* ================================================================ *)

Lemma fst_fmap_pair {A B} (g : string * A → B) (l : list (string * A)) :
  ((λ cf, (cf.1, g cf)) <$> l).*1 = l.*1.
Proof. induction l as [|x l IH]; [done|]. csimpl. by rewrite IH. Qed.

Lemma not_elem_of_zip_fst {A B} (a : list A) (b : list B) (x : A) :
  x ∉ a → x ∉ (zip a b).*1.
Proof.
  revert b. induction a as [|y a IH]; intros b Hx; [by intros ?%elem_of_nil|].
  destruct b as [|z b]; [by intros ?%elem_of_nil|]. csimpl.
  apply not_elem_of_cons in Hx as [Hne Hx]. apply not_elem_of_cons. split; [done|].
  by apply IH.
Qed.

(** A reduced column of an aggregate row holds the reduction of the
    column over the members of the group. *)
Lemma cell_at_agg_row_metric (by_cols : list string) (spec : list (string * reducer))
    (k : list cell) (ms : list row) (c : string) (f : reducer) :
  NoDup spec.*1 → (c, f) ∈ spec → c ∉ by_cols →
  cell_at (agg_row by_cols spec k ms) c = reduce f ((λ r, cell_at r c) <$> ms).
Proof.
  intros Hnd Hin Hc. unfold agg_row, cell_at.
  rewrite list_to_map_app, lookup_union_r.
  - erewrite elem_of_list_to_map_1; [done| |].
    + by rewrite fst_fmap_pair.
    + apply list_elem_of_fmap. by exists (c, f).
  - apply not_elem_of_list_to_map_1. by apply not_elem_of_zip_fst.
Qed.

Lemma NoDup_filtered_metrics (df : DataFrame) (ms : list (string * reducer)) :
  NoDup ms.*1 → NoDup (filter (λ cf, cf.1 ∈ columns df) ms).*1.
Proof.
  induction ms as [|[c f] ms IH]; [done|]. csimpl. intros [Hc Hnd]%NoDup_cons.
  rewrite filter_cons. case_decide; [|by apply IH]. csimpl.
  apply NoDup_cons. split; [|by apply IH].
  intros Hin%elem_of_filtered_names. done.
Qed.

(** The rows of a grouped table, with the members of their groups. *)
Lemma groupby_agg_rows (by_cols : list string) (spec : list (string * reducer))
    (df out : DataFrame) (o : row) :
  NoDup by_cols → NoDup spec.*1 → (∀ c, c ∈ by_cols → c ∉ spec.*1) →
  groupby_agg false by_cols spec df = Ok out → o ∈ rows out →
  let members := filter (λ r, row_key by_cols r = row_key by_cols o) (rows df) in
  members ≠ []
  ∧ ∀ c f, (c, f) ∈ spec → cell_at o c = reduce f ((λ r, cell_at r c) <$> members).
Proof.
  intros Hnd Hspec Hdisj Hout Ho. cbv zeta.
  destruct (decide (by_cols = [])) as [->|Hne]; [done|].
  rewrite groupby_agg_ok in Hout by done. injection Hout as <-. cbn [rows] in Ho.
  apply list_elem_of_fmap in Ho as (k & -> & Hk).
  assert (row_key by_cols
            (agg_row by_cols spec k (group_members false by_cols (rows df) k)) = k)
    as Hkey.
  { apply row_key_agg_row; [done|]. by eapply group_keys_length. }
  rewrite Hkey. split.
  - apply elem_of_group_keys in Hk as (r & Hr & Hrk). intros Hnil.
    assert (r ∈ filter (λ r, row_key by_cols r = k) (rows df)) as Hin
      by by apply list_elem_of_filter.
    rewrite Hnil in Hin. by apply elem_of_nil in Hin.
  - intros c f Hcf. apply cell_at_agg_row_metric; [done..|].
    intros Hc. apply (Hdisj c Hc). apply list_elem_of_fmap. by exists (c, f).
Qed.

(** X6. In the aggregate of a table that holds a candidate key column,
    every row stands for a group that is not empty, and each metric column
    the table holds is reduced over the rows of that group: the sum for the
    answered, outbound, wrap-up, handle and logged-in columns, the mean for
    the average handle time, the first value that is not missing for the
    log-in and log-out times.  The statement is for tables whose summed and
    averaged columns hold no text. *)
Theorem aggregates_reduce_each_group (df : DataFrame) (c0 : string) :
  c0 ∈ key_candidates → c0 ∈ columns df →
  (∀ r c f s, r ∈ rows df → (c, f) ∈ perf_metrics ++ status_metrics → f ≠ First →
              cell_at r c ≠ Str s) →
  let by_cols := present df key_candidates in
  ∃ P S,
    aggregate_perf df = Ok P ∧ aggregate_status df = Ok S
    ∧ (∀ o, o ∈ rows P →
         let members := filter (λ r, row_key by_cols r = row_key by_cols o) (rows df) in
         members ≠ []
         ∧ ∀ c f, (c, f) ∈ perf_metrics → c ∈ columns df →
                  cell_at o c = reduce f ((λ r, cell_at r c) <$> members))
    ∧ (∀ o, o ∈ rows S →
         let members := filter (λ r, row_key by_cols r = row_key by_cols o) (rows df) in
         members ≠ []
         ∧ ∀ c f, (c, f) ∈ status_metrics → c ∈ columns df →
                  cell_at o c = reduce f ((λ r, cell_at r c) <$> members)).
Proof.
  intros Hc0 Hdf _ by_cols.
  assert (by_cols ≠ []) as Hne.
  { intros Hnil. assert (c0 ∈ by_cols) as Hin by by apply elem_of_present.
    rewrite Hnil in Hin. by apply elem_of_nil in Hin. }
  assert (∀ ms : list (string * reducer),
            (∀ c, c ∈ key_candidates → ¬ (c ∈ ms.*1)) →
                ∀ c, c ∈ by_cols → c ∉ (filter (λ cf, cf.1 ∈ columns df) ms).*1)
    as Hdisj.
  { intros ms Hms c [_ Hc]%elem_of_present Hin%elem_of_filtered_names.
    by apply (Hms c). }
  destruct (groupby_agg_partition by_cols
              (filter (λ cf, cf.1 ∈ columns df) perf_metrics) df Hne (NoDup_present df))
    as (P & HP & _).
  destruct (groupby_agg_partition by_cols
              (filter (λ cf, cf.1 ∈ columns df) status_metrics) df Hne (NoDup_present df))
    as (S & HS & _).
  exists P, S. split; [done|]. split; [done|]. split.
  - intros o Ho.
    destruct (groupby_agg_rows _ _ _ _ o (NoDup_present df)
                (NoDup_filtered_metrics df perf_metrics ltac:(compute_done))
                (Hdisj perf_metrics (λ c Hc, proj1 (key_is_no_metric c Hc))) HP Ho)
      as [Hmem Hcells].
    split; [done|]. intros c f Hcf Hc. apply Hcells. by apply list_elem_of_filter.
  - intros o Ho.
    destruct (groupby_agg_rows _ _ _ _ o (NoDup_present df)
                (NoDup_filtered_metrics df status_metrics ltac:(compute_done))
                (Hdisj status_metrics (λ c Hc, proj2 (key_is_no_metric c Hc))) HS Ho)
      as [Hmem Hcells].
    split; [done|]. intros c f Hcf Hc. apply Hcells. by apply list_elem_of_filter.
Qed.

(* ================================================================ *)
(** ** Further properties of the template writer *)
(* ================================================================ *)

(** A cell that holds a number or nothing converts without error. *)
Lemma float_or_zero_number (cols : list string) (r : row) (c : string) (d : pyval) :
  (∀ s, cell_at r c ≠ Str s) → pd_isna d = true ∨ (∃ q, d = PFloat (FNum q)) →
  ∃ q, float_or_zero (row_get cols r c d) = Ok (FNum q).
Proof.
  intros Hc Hd. unfold float_or_zero, row_get. case_bool_decide.
  - destruct (cell_at r c) as [|q|s] eqn:Hcell; simpl; eauto. by destruct (Hc s).
  - destruct Hd as [->|[q ->]]; simpl; eauto.
Qed.

Lemma float_or_none_number (cols : list string) (r : row) (c : string) :
  (∀ s, cell_at r c ≠ Str s) →
  float_or_none (row_get cols r c PNone) = Ok None
  ∨ ∃ q, float_or_none (row_get cols r c PNone) = Ok (Some (FNum q)).
Proof.
  intros Hc. unfold float_or_none, row_get. case_bool_decide; [|by left].
  destruct (cell_at r c) as [|q|s] eqn:Hcell; simpl; eauto. by destruct (Hc s).
Qed.

Lemma row_record_total (cols : list string) (r : row) :
  (∀ c s, c ∈ number_columns → cell_at r c ≠ Str s) →
  ∃ rec, row_record cols r = Ok rec.
Proof.
  intros Hnum. unfold row_record.
  assert (∃ d, match row_get cols r "Interval Start" PNone with
               | PStr _ => parse_interval_date (row_get cols r "Interval Start" PNone)
               | _ => Ok today
               end = Ok d) as [d ->].
  { destruct (row_get cols r "Interval Start" PNone); eauto using parse_interval_date_ok. }
  cbn [mbind result_bind]. rewrite seconds_to_excel_time_ok. cbn [mbind result_bind].
  destruct (float_or_zero_number cols r "Answered" PNone) as [a ->];
    [intros s; apply Hnum; compute_done|by left|].
  cbn [mbind result_bind].
  destruct (float_or_zero_number cols r "Outbound" PNone) as [ob ->];
    [intros s; apply Hnum; compute_done|by left|].
  cbn [mbind result_bind].
  destruct (float_or_zero_number cols r "Total Inbound Booking" (PFloat (FNum (qz 0))))
    as [b ->]; [intros s; apply Hnum; compute_done|right; eauto|].
  cbn [mbind result_bind].
  destruct (float_or_zero_number cols r "Total ACW" PNone) as [acw ->];
    [intros s; apply Hnum; compute_done|by left|].
  cbn [mbind result_bind]. rewrite seconds_to_excel_time_ok. cbn [mbind result_bind].
  assert (∃ avg, (float_or_none (row_get cols r "Total Handle" PNone)
                  ≫= λ th, avg_handle th (FNum a) (row_get cols r "Avg Handle" PNone))
                 = Ok avg) as [avg Havg].
  { assert (∃ x, float_or_none (row_get cols r "Avg Handle" PNone) = Ok x) as [x Hx].
    { destruct (float_or_none_number cols r "Avg Handle") as [->|[q ->]]; eauto.
      intros s; apply Hnum; compute_done. }
    destruct (float_or_none_number cols r "Total Handle") as [->|[q ->]].
    - intros s; apply Hnum; compute_done.
    - cbn [mbind result_bind]. unfold avg_handle. eauto.
    - cbn [mbind result_bind]. unfold avg_handle.
      destruct (truthy (FNum q) && truthy (FNum a)) eqn:Htr; [|eauto].
      apply andb_true_iff in Htr as [_ Ha]. unfold py_div. simpl in Ha.
      rewrite bool_decide_eq_false_2 by (by apply bool_decide_eq_true_1 in Ha).
      simpl. eauto. }
  destruct (float_or_none (row_get cols r "Total Handle" PNone)) as [th|]; [|done].
  cbn [mbind result_bind] in Havg |- *. rewrite Havg. cbn [mbind result_bind].
  rewrite seconds_to_hhmmss_time_ok. cbn [mbind result_bind].
  unfold py_int. cbn [mbind result_bind]. eauto.
Qed.

Lemma records_of_total (cols : list string) (rs : list row) :
  (∀ r c s, r ∈ rs → c ∈ number_columns → cell_at r c ≠ Str s) →
  ∃ recs, records_of cols rs = Ok recs ∧ length recs = length rs.
Proof.
  induction rs as [|r rs IH]; intros Hnum; [by exists []|].
  cbn [records_of].
  destruct (row_record_total cols r) as [rec ->].
  { intros c s. apply Hnum. by apply elem_of_cons; left. }
  destruct IH as (recs & -> & Hlen).
  { intros r' c s Hr'. apply Hnum. by apply elem_of_cons; right. }
  cbn [mbind result_bind]. eexists. split; [done|]. simpl. by rewrite Hlen.
Qed.

(** X7. [fill_template] raises [KeyError] when the work book has no sheet
    [Sheet1].  With the sheet, and on a table whose count and duration
    columns hold numbers or nothing, it does not raise and yields one
    record per row of the table. *)
Theorem fill_template_total (template : workbook) (df : DataFrame) :
  (template !! "Sheet1" = None →
   fill_template template df = Raise (KeyError "Worksheet Sheet1 does not exist."))
  ∧ (∀ ws, template !! "Sheet1" = Some ws →
       (∀ r c s, r ∈ rows df → c ∈ number_columns → cell_at r c ≠ Str s) →
       ∃ wb' recs,
         fill_template template df = Ok (wb', recs)
         ∧ length recs = length (rows df)).
Proof.
  split.
  - intros Hnone. unfold fill_template. by rewrite Hnone.
  - intros ws Hws Hnum. rewrite fill_template_normal, Hws.
    destruct (records_of_total (columns df) (rows df) Hnum) as (recs & -> & Hlen).
    cbn [mbind result_bind]. eauto.
Qed.

Lemma written_answered (rec : csv_record) (row_idx : nat) :
  written (row_writes rec row_idx) 7 = Some (Some (XInt (int_of (rec_answered rec))))
  ∧ written (row_writes rec row_idx) 8 = Some (Some (XInt (int_of (rec_inq_amb rec)))).
Proof.
  unfold written, row_writes.
  destruct (excel_time_of (rec_logged_in rec)),
           (excel_time_of (PFloat (rec_acw rec))),
           (clock_of (opt_float (rec_avg_handle rec))); split; reflexivity.
Qed.

(** X8. In every record the count of answered INQ and AMB queue calls is
    the count of answered calls, and cells G and H of its row hold the same
    whole number: the answered count cut off toward zero.  A missing
    answered count is the count 0. *)
Theorem answered_is_written_twice (cols : list string) (row_idx : nat) (r : row)
    (ws ws' : sheet) (rec : csv_record) :
  write_row cols row_idx r ws = Ok (ws', rec) →
  rec_inq_amb rec = rec_answered rec
  ∧ (∃ q, rec_answered rec = FNum q
          ∧ value_at ws' (row_idx, 7%nat)
            = Some (XInt (Z.quot (Qnum q) (Z.pos (Qden q)))))
  ∧ value_at ws' (row_idx, 8%nat) = value_at ws' (row_idx, 7%nat)
  ∧ (pd_isna (row_get cols r "Answered" PNone) = true →
     rec_answered rec = FNum (qz 0)
     ∧ value_at ws' (row_idx, 7%nat) = Some (XInt 0)).
Proof.
  intros [Hrec ->]%write_row_record.
  assert (row_record cols r = Ok rec) as Hrec' by done.
  apply row_record_inv in Hrec
    as (_ & _ & _ & _ & _ & Hans & Hinq & _).
  destruct (written_answered rec row_idx) as [HG HH].
  assert (∀ c v, written (row_writes rec row_idx) c = Some v →
                 value_at (set_all ws (keyed row_idx (row_writes rec row_idx)))
                   (row_idx, c) = v) as Hval.
  { intros c v Hw. by rewrite value_at_set_all, last_set_keyed, decide_True, Hw. }
  assert (∃ q, rec_answered rec = FNum q) as [q Hq].
  { unfold row_record in Hrec'.
    destruct (match row_get cols r "Interval Start" PNone with
              | PStr _ => _ | _ => _ end) as [date_val|]; [|done].
    cbn [mbind result_bind] in Hrec'. rewrite seconds_to_excel_time_ok in Hrec'.
    cbn [mbind result_bind] in Hrec'. rewrite Hans in Hrec'.
    cbn [mbind result_bind] in Hrec'.
    destruct (float_or_zero (row_get cols r "Outbound" PNone)); [|done].
    cbn [mbind result_bind] in Hrec'.
    destruct (float_or_zero (row_get cols r "Total Inbound Booking" _)); [|done].
    cbn [mbind result_bind] in Hrec'.
    destruct (float_or_zero (row_get cols r "Total ACW" PNone)); [|done].
    cbn [mbind result_bind] in Hrec'. rewrite seconds_to_excel_time_ok in Hrec'.
    cbn [mbind result_bind] in Hrec'.
    destruct (float_or_none (row_get cols r "Total Handle" PNone)); [|done].
    cbn [mbind result_bind] in Hrec'.
    destruct (avg_handle _ _ _); [|done]. cbn [mbind result_bind] in Hrec'.
    rewrite seconds_to_hhmmss_time_ok in Hrec'. cbn [mbind result_bind] in Hrec'.
    destruct (rec_answered rec) as [q|]; [eauto|]. by unfold py_int in Hrec'. }
  split; [done|]. split; [|split].
  - exists q. split; [done|]. rewrite (Hval _ _ HG), Hq. done.
  - by rewrite (Hval _ _ HG), (Hval _ _ HH), Hinq.
  - intros Hna. rewrite (float_or_zero_na _ Hna) in Hans. injection Hans as Hans.
    split; [done|]. by rewrite (Hval _ _ HG), <-Hans.
Qed.

(** X9. Filling the work book that [fill_template] returned, with the same
    table, gives the same records and a sheet with the same values in all
    its cells: a second run leaves nothing of the first behind and adds
    nothing to it. *)
Theorem fill_template_twice (template : workbook) (df : DataFrame)
    (wb1 : workbook) (recs : list csv_record) :
  fill_template template df = Ok (wb1, recs) →
  ∃ wb2 ws1 ws2,
    fill_template wb1 df = Ok (wb2, recs)
    ∧ wb1 !! "Sheet1" = Some ws1 ∧ wb2 !! "Sheet1" = Some ws2
    ∧ (∀ k, value_at ws2 k = value_at ws1 k)
    ∧ ∀ name, name ≠ "Sheet1" → wb2 !! name = template !! name.
Proof.
  rewrite fill_template_normal.
  destruct (template !! "Sheet1") as [ws|] eqn:Hws; [|done].
  destruct (records_of (columns df) (rows df)) as [recs'|] eqn:Hrecs; [|done].
  cbn [mbind result_bind]. intros [= <- <-].
  set (ws1 := set_all ws (clear_writes ws ++ rows_writes 3 recs')).
  set (ws2 := set_all ws1 (clear_writes ws1 ++ rows_writes 3 recs')).
  exists (<["Sheet1" := ws2]> (<["Sheet1" := ws1]> template)), ws1, ws2.
  split.
  { rewrite fill_template_normal, lookup_insert_eq, Hrecs. done. }
  split; [by rewrite lookup_insert_eq|]. split; [by rewrite lookup_insert_eq|].
  split; [|by intros name Hname; rewrite !lookup_insert_ne].
  intros [r c]. unfold ws2. rewrite value_at_set_all, last_set_app.
  destruct (last_set (rows_writes 3 recs') (r, c)) as [v|] eqn:Hrow.
  - unfold ws1. by rewrite value_at_set_all, last_set_app, Hrow.
  - rewrite last_set_clear_writes. case_decide as Hin; [|done].
    unfold ws1. rewrite value_at_set_all, last_set_app, Hrow.
    rewrite last_set_clear_writes. case_decide as Hin'; [done|].
    unfold value_at. destruct (ws !! (r, c)) as [x|] eqn:Hx; [|done].
    apply max_row_bound in Hx. lia.
Qed.


(* ================================================================ *)
(** ** The dates [parse_interval_date] returns *)
(* ================================================================ *)

(** The groups of a match are those of the directives of the format, in
    their order, each matched by the expression of its directive. *)
Lemma fmatch_groups (items : list fitem) (s : list ascii)
    (groups : list (directive * list ascii)) (rest : list ascii) :
  (groups, rest) ∈ fmatch items s →
  groups.*1 = dirs_of items
  ∧ Forall (λ g, ∃ pre post, (g.2, post) ∈ rmatch (directive_re g.1) pre) groups.
Proof.
  revert s groups rest. induction items as [|i items IH]; intros s groups rest.
  - intros [= -> _]%list_elem_of_singleton. by split.
  - cbn [fmatch].
    intros (mr & (cr & Hgr%list_elem_of_singleton & Hcr)%list_elem_of_bind & Hmr)
      %list_elem_of_bind.
    injection Hgr as -> ->. destruct cr as [cgroups crest].
    destruct (IH _ _ _ Hcr) as [Hdirs Hall].
    destruct i as [d| |a]; cbn [dirs_of omap list_omap]; simpl; [|done..].
    split; [f_equal; exact Hdirs|]. constructor; [|done]. simpl.
    exists s, mr.2. by destruct mr.
Qed.

Lemma rmatch_digit (pre t post : list ascii) :
  (t, post) ∈ rmatch digit pre → ∃ a, t = [a] ∧ is_digit a.
Proof.
  unfold digit. cbn [rmatch]. destruct pre as [|a pre]; [by intros ?%elem_of_nil|].
  destruct (is_digit a) eqn:Ha; [|by intros ?%elem_of_nil].
  intros [= -> _]%list_elem_of_singleton. exists a. by rewrite Ha.
Qed.

Lemma rmatch_year (pre t post : list ascii) :
  (t, post) ∈ rmatch (directive_re Dy) pre →
  ∃ a b, t = [a; b] ∧ is_digit a ∧ is_digit b.
Proof.
  cbn [directive_re rmatch].
  intros ([t1 r1] & ([t2 r2] & Hx%list_elem_of_singleton & H2)%list_elem_of_bind & H1)
    %list_elem_of_bind.
  injection Hx as -> ->.
  apply rmatch_digit in H1 as (a & -> & Ha). apply rmatch_digit in H2 as (b & -> & Hb).
  by exists a, b.
Qed.

Lemma digit_value (a : ascii) : is_digit a → 0 <= Z.of_N (code a) - 48 <= 9.
Proof.
  unfold is_digit. intros [H1 H2]%Is_true_true%andb_true_iff.
  apply N.leb_le in H1, H2. lia.
Qed.

Lemma year_of_group (fs : fields) (t : list ascii) (a b : ascii) :
  t = [a; b] → is_digit a → is_digit b →
  1969 <= f_year (set_field fs (Dy, t)) <= 2068.
Proof.
  intros -> Ha Hb. unfold set_field, int_of_digits. simpl.
  rewrite (Is_true_true_1 _ Ha), (Is_true_true_1 _ Hb).
  apply digit_value in Ha, Hb. simpl.
  match goal with |- context [?x <=? 68] => destruct (Z.leb_spec x 68) end; lia.
Qed.

Lemma dt_date_valid (y m d : Z) (dd : date) :
  dt_date y m d = Ok dd →
  dd = Date y m d ∧ 1 <= m <= 12 ∧ 1 <= d <= days_in_month y m.
Proof.
  unfold dt_date.
  destruct ((1 <=? m) && (m <=? 12)) eqn:Hm; [|done].
  destruct ((1 <=? d) && (d <=? days_in_month y m)) eqn:Hd; [|done].
  simpl. intros [= <-].
  apply andb_true_iff in Hm as [?%Z.leb_le ?%Z.leb_le].
  apply andb_true_iff in Hd as [?%Z.leb_le ?%Z.leb_le]. done.
Qed.

(** A date read with one of the two formats is a day of the calendar in
    the years 1969 to 2068. *)
Lemma strptime_interval_date (s fmt : string) (d : datetime) :
  fmt ∈ interval_formats → strptime s fmt = Ok d →
  1969 <= year (dt_day d) <= 2068
  ∧ 1 <= month (dt_day d) <= 12
  ∧ 1 <= day (dt_day d) <= days_in_month (year (dt_day d)) (month (dt_day d)).
Proof.
  intros Hfmt. unfold strptime.
  assert (∃ items d1 d2,
            compile_format (String.list_ascii_of_string fmt) = Some items
            ∧ dirs_of items = [d1; d2; Dy; DH; DM] ∧ d1 ≠ Dy ∧ d2 ≠ Dy)
    as (items & d1 & d2 & -> & Hdirs & Hd1 & Hd2).
  { apply elem_of_cons in Hfmt as [->|Hfmt].
    - eexists _, Dd, Dm. split; [by vm_compute|]. by split.
    - apply list_elem_of_singleton in Hfmt as ->.
      eexists _, Dm, Dd. split; [by vm_compute|]. by split. }
  destruct (fmatch items (String.list_ascii_of_string s)) as [|[groups rest] ms] eqn:Hf;
    [done|].
  destruct rest as [|]; [|done].
  assert ((groups, []) ∈ fmatch items (String.list_ascii_of_string s)) as Hin.
  { rewrite Hf. by apply elem_of_cons; left. }
  apply fmatch_groups in Hin as [Hg Hall]. rewrite Hdirs in Hg.
  destruct groups as [|[? t1] [|[? t2] [|[? t3] [|[? t4] [|[? t5] [|]]]]]];
    simplify_eq/=.
  apply Forall_cons in Hall as [_ Hall]. apply Forall_cons in Hall as [_ Hall].
  apply Forall_cons in Hall as [(pre & post & Hy) _]. simpl in Hy.
  apply rmatch_year in Hy as (a & b & Ht & Ha & Hb).
  set (fs2 := set_field (set_field (Fields 1900 1 1 0 0) (d1, t1)) (d2, t2)).
  pose proof (year_of_group fs2 t3 a b Ht Ha Hb) as Hyear.
  destruct (dt_date _ _ _) as [dd|] eqn:Hdd; [|done].
  cbn [mbind result_bind]. destruct (dt_time _ _ _) as [tt|]; [|done].
  cbn [mbind result_bind]. intros [= <-]. cbn [dt_day].
  apply dt_date_valid in Hdd as (-> & Hm & Hday). cbn [year month day].
  split; [exact Hyear|done].
Qed.

(** X10. [parse_interval_date] never raises.  It returns today's date for
    a value that is no text and for a text that neither format accepts.
    Any other date it returns is a day of the calendar, in a year from 1969
    to 2068: a two-digit year up to 68 is read in this century, one from 69
    in the last. *)
Theorem parse_interval_date_total :
  (∀ v, ∃ d, parse_interval_date v = Ok d)
  ∧ (∀ v, (∀ s, v ≠ PStr s) → parse_interval_date v = Ok today)
  ∧ (∀ s, (∀ fmt, fmt ∈ interval_formats → is_ok (strptime s fmt) = false) →
          parse_interval_date (PStr s) = Ok today)
  ∧ (∀ s d, parse_interval_date (PStr s) = Ok d →
            d = today
            ∨ (1969 <= year d <= 2068
               ∧ 1 <= month d <= 12
               ∧ 1 <= day d <= days_in_month (year d) (month d))).
Proof.
  split; [apply parse_interval_date_ok|]. split; [|split].
  - intros [| |s|] Hv; try done. by destruct (Hv s).
  - intros s Hno. unfold parse_interval_date, interval_formats, try_formats.
    pose proof (Hno "%d/%m/%y %H:%M" ltac:(compute_done)) as H1.
    pose proof (Hno "%m/%d/%y %H:%M" ltac:(compute_done)) as H2.
    destruct (strptime s "%d/%m/%y %H:%M") as [|e1] eqn:He1; [done|].
    destruct (strptime_raises _ _ _ He1) as [msg1 ->].
    destruct (strptime s "%m/%d/%y %H:%M") as [|e2] eqn:He2; [done|].
    by destruct (strptime_raises _ _ _ He2) as [msg2 ->].
  - intros s d. unfold parse_interval_date, interval_formats, try_formats.
    destruct (strptime s "%d/%m/%y %H:%M") as [d1|e1] eqn:He1.
    { intros [= <-]. right. eapply strptime_interval_date; [|done]. compute_done. }
    destruct (strptime_raises _ _ _ He1) as [msg1 ->].
    destruct (strptime s "%m/%d/%y %H:%M") as [d2|e2] eqn:He2.
    { intros [= <-]. right. eapply strptime_interval_date; [|done]. compute_done. }
    destruct (strptime_raises _ _ _ He2) as [msg2 ->]. intros [= <-]. by left.
Qed.

End pipeline.

(* ================================================================== *)
(** ** Worked examples *)
(* ================================================================== *)

(** The examples run the program on small tables.  They read the text
    conversions as follows: a text of decimal digits is the number it
    spells, which is what Python reads; the tables hold no other text that
    Python would read as a number.  A whole number prints as Python prints
    the float, with one decimal. *)
Definition demo_today : date := Date 2025 1 1.

Definition digits_number (s : string) : option Z :=
  let l := String.list_ascii_of_string s in
  if bool_decide (l ≠ []) && forallb is_digit l then Some (int_of_digits l) else None.

Definition demo_float_of_str (s : string) : option pyfloat :=
  (λ z, FNum (qz z)) <$> digits_number s.

Definition demo_to_numeric_str (s : string) : option Qc := qz <$> digits_number s.

Definition demo_str_of_num (q : Qc) : string := pretty (Qnum q) +:+ ".0".

Definition mk_row (kvs : list (string * cell)) : row := list_to_map kvs.

(** A performance export: two voice rows and a chat row, which the loader
    leaves out.  Bob has a total handle time of zero. *)
Definition demo_perf : DataFrame :=
  Frame ["Interval Start"; "Agent Name"; "Media Type"; "Answered";
         "Total Handle"; "Avg Handle"]
    [mk_row [("Interval Start", Str "03/04/25 10:00"); ("Agent Name", Str "Ann");
             ("Media Type", Str "voice"); ("Answered", Num (qz 10));
             ("Total Handle", Num (qz 600)); ("Avg Handle", Num (qz 55))];
     mk_row [("Interval Start", Str "03/04/25 10:00"); ("Agent Name", Str "Bob");
             ("Media Type", Str "voice"); ("Answered", Num (qz 5));
             ("Total Handle", Num (qz 0)); ("Avg Handle", Num (qz 55))];
     mk_row [("Interval Start", Str "03/04/25 10:00"); ("Agent Name", Str "Ann");
             ("Media Type", Str "chat"); ("Answered", Num (qz 1));
             ("Total Handle", Num (qz 10)); ("Avg Handle", Num (qz 10))]].

(** A status export: the second row has no agent name and no partner in
    the performance export. *)
Definition demo_status : DataFrame :=
  Frame ["Interval Start"; "Agent Name"; "Logged In"; "Log In"; "Log Out"]
    [mk_row [("Interval Start", Str "03/04/25 10:00"); ("Agent Name", Str "Ann");
             ("Logged In", Num (qz 3600)); ("Log In", Str "08:00");
             ("Log Out", Str "16:00")];
     mk_row [("Interval Start", Str "03/04/25 10:00"); ("Agent Name", Null);
             ("Logged In", Num (qz 60)); ("Log In", Str "09:00");
             ("Log Out", Str "09:01")]].

Definition demo_unnamed_booking : row :=
  mk_row [("CC_CLERK_NAME", Null); ("NO_OF_BOOKED_APPT", Str "x")].

(** A booking table: two rows of Ann, one of them with its count as text,
    and a row without name whose count is no number. *)
Definition demo_booking : DataFrame :=
  Frame ["CC_CLERK_NAME"; "NO_OF_BOOKED_APPT"]
    [mk_row [("CC_CLERK_NAME", Str "Ann"); ("NO_OF_BOOKED_APPT", Num (qz 3))];
     demo_unnamed_booking;
     mk_row [("CC_CLERK_NAME", Str "Ann"); ("NO_OF_BOOKED_APPT", Str "2")]].

(** A booking table without count column. *)
Definition demo_booking_no_count : DataFrame :=
  Frame ["CC_CLERK_NAME"; "DEPARTMENT"]
    [mk_row [("CC_CLERK_NAME", Str "Ann"); ("DEPARTMENT", Str "ENT")]].

(** A template with two header rows, stale content in rows 3 to 5 and a
    note outside columns A to N. *)
Definition demo_sheet : sheet :=
  list_to_map [((1%nat, 1%nat), XCell (Some (XStr "Agent report")) 1%nat);
               ((2%nat, 2%nat), XCell (Some (XStr "Agent")) 2%nat);
               ((3%nat, 2%nat), XCell (Some (XStr "stale")) 3%nat);
               ((4%nat, 15%nat), XCell (Some (XStr "note")) 0%nat);
               ((5%nat, 7%nat), XCell (Some (XInt 9)) 4%nat)].

Definition demo_template : workbook := {[ "Sheet1" := demo_sheet ]}.

(** A template that holds the two header rows only. *)
Definition demo_header_sheet : sheet :=
  list_to_map [((1%nat, 1%nat), XCell (Some (XStr "Agent report")) 1%nat);
               ((2%nat, 2%nat), XCell (Some (XStr "Agent")) 2%nat)].

Definition demo_header_template : workbook := {[ "Sheet1" := demo_header_sheet ]}.

(** Rows of a merged table: one whose average is recomputed, one whose
    total handle time is zero. *)
Definition demo_handle_cols : list string :=
  ["Agent Name"; "Answered"; "Total Handle"; "Avg Handle"].

Definition demo_handle_row : row :=
  mk_row [("Agent Name", Str "Ann"); ("Answered", Num (qz 10));
          ("Total Handle", Num (qz 600)); ("Avg Handle", Num (qz 55))].

Definition demo_zero_handle_row : row :=
  mk_row [("Agent Name", Str "Bob"); ("Answered", Num (qz 5));
          ("Total Handle", Num (qz 0)); ("Avg Handle", Num (qz 55))].

Definition demo_merged : DataFrame := Frame demo_handle_cols [demo_handle_row].



(** C9, example: 03/04/25 is read as the third of April. *)
Lemma parse_interval_date_day_first_example :
  strptime "03/04/25 10:00" "%m/%d/%y %H:%M"
  = Ok (DateTime (Date 2025 3 4) (Time 10 0 0))
  ∧ parse_interval_date demo_today (PStr "03/04/25 10:00") = Ok (Date 2025 4 3).
Proof.
  assert (strptime "03/04/25 10:00" "%m/%d/%y %H:%M"
          = Ok (DateTime (Date 2025 3 4) (Time 10 0 0))) as H2
    by (vm_compute; reflexivity).
  split; [done|].
  pose proof (parse_interval_date_day_first demo_today _ _ H2) as H.
  assert (strptime "03/04/25 10:00" "%d/%m/%y %H:%M"
          = Ok (DateTime (Date 2025 4 3) (Time 10 0 0))) as H1
    by (vm_compute; reflexivity).
  rewrite H1 in H. exact H.
Defined.


(** C3, example: 600 seconds over 10 calls, where the export reports 55. *)
Lemma avg_handle_recomputed_example :
  ∃ ws' rec,
    write_row demo_today demo_float_of_str demo_handle_cols 3 demo_handle_row ∅
    = Ok (ws', rec)
    ∧ rec_avg_handle rec = Some (FNum (qz 600 / qz 10)%Qc).
Proof.
  destruct (write_row demo_today demo_float_of_str demo_handle_cols 3
              demo_handle_row ∅) as [[ws' rec]|e] eqn:Hw; [|by vm_compute in Hw].
  exists ws', rec. split; [done|].
  destruct (avg_handle_recomputed _ _ _ _ _ _ _ _ Hw) as (Hre & _ & _).
  apply Hre; [by vm_compute|by vm_compute|..]; intros Hq; by vm_compute in Hq.
Defined.

(** C3, counterexample to the claim as it stands: the total handle time is
    there, it is zero, and five calls were answered; the record keeps the
    average the export reports, 55, where the claim gives 0 / 5. *)
Lemma avg_handle_zero_total_handle :
  ∃ ws' rec,
    write_row demo_today demo_float_of_str demo_handle_cols 3 demo_zero_handle_row ∅
    = Ok (ws', rec)
    ∧ row_get demo_handle_cols demo_zero_handle_row "Total Handle" PNone
      = PFloat (FNum (qz 0))
    ∧ row_get demo_handle_cols demo_zero_handle_row "Answered" PNone
      = PFloat (FNum (qz 5))
    ∧ rec_avg_handle rec = Some (FNum (qz 55))
    ∧ (qz 0 / qz 5)%Qc ≠ qz 55.
Proof.
  eexists _, _. split; [vm_compute; reflexivity|].
  split; [by vm_compute|]. split; [by vm_compute|]. split; [by vm_compute|].
  intros Hq. by vm_compute in Hq.
Qed.

(** The records of the example table and of the example run. *)
Lemma demo_merged_records :
  ∃ rec,
    records_of demo_today demo_float_of_str (columns demo_merged) (rows demo_merged)
    = Ok [rec]
    ∧ rec_agent_name rec = PStr "Ann"
    ∧ rec_acw rec = FNum (qz 0).
Proof. eexists. split; [vm_compute; reflexivity|]. split; reflexivity. Qed.

Lemma demo_run_records :
  ∃ wb0 recs0,
    run_from_paths demo_today demo_float_of_str demo_to_numeric_str demo_str_of_num
      demo_perf demo_status demo_template None = Ok (wb0, recs0)
    ∧ rec_agent_name <$> recs0 = [PStr "Ann"; PStr "Bob"].
Proof. eexists _, _. split; [vm_compute; reflexivity|reflexivity]. Qed.

Lemma demo_fill (template : workbook) (ws : sheet) (rec : csv_record) :
  template !! "Sheet1" = Some ws →
  records_of demo_today demo_float_of_str (columns demo_merged) (rows demo_merged)
  = Ok [rec] →
  fill_template demo_today demo_float_of_str template demo_merged
  = Ok (<["Sheet1" := set_all ws (clear_writes ws ++ rows_writes demo_float_of_str 3 [rec])]> template,
        [rec]).
Proof. intros Hws Hrecs. by rewrite fill_template_normal, Hws, Hrecs. Qed.





